(** * pywwb: Windows Without Borders

    A shallow embedding of [pywwb.py].  The script is a sequence of calls
    into the window manager (through pywin32's [win32gui], [win32api] and
    [win32con]) and into Python's [re].  Neither is part of the script, so
    the file has three layers:

    - the platform: a state of top-level windows and monitors, and the
      window-manager calls the script makes, as operations of a state and
      exception monad that also records every call in a trace;
    - the regular-expression engine, as an interface ([re.Engine]): the
      theorems about the script hold for every engine; one small engine,
      exact on the patterns of ordinary ASCII characters, serves the
      examples;
    - the script's own functions, written against the two layers above in
      the order and with the arguments of the Python source. *)

From Stdlib Require Import ZArith List String Ascii Bool Lia Permutation.
Import ListNotations.

Local Open Scope Z_scope.

(** ** Python values and control flow *)

Definition HWND := Z.
Definition HMONITOR := Z.
Definition HMENU := Z.

(** A [PyRECT] is the tuple [(left, top, right, bottom)]. *)
Definition RECT := (Z * Z * Z * Z)%type.

Definition tuple_of_rect (r : RECT) : list Z :=
  let '(l, t, rt, b) := r in [l; t; rt; b].

(** The exceptions that can travel through the script: the signal of the
    enumeration callback, a failed tuple unpacking, an error of a
    window-manager call (error code and name of the call) and [re.error]
    for a malformed pattern.  [re_unsupported] is no exception of Python:
    it marks a pattern that the small engine of the examples does not
    cover. *)
Inductive exn : Type :=
| StopIteration
| ValueError
| pywintypes_error (winerror : Z) (funcname : string)
| re_error (pattern : string)
| re_unsupported (pattern : string).

Inductive result (A : Type) : Type :=
| Ok (a : A)
| Raise (e : exn).
Arguments Ok {A} a.
Arguments Raise {A} e.

(** ** Constants of [win32con] *)

Module con.
Definition WS_POPUP : Z := -2147483648.
Definition WS_VISIBLE : Z := 268435456.
Definition WS_CLIPCHILDREN : Z := 33554432.
Definition GWL_STYLE : Z := -16.
Definition HWND_TOP : Z := 0.
Definition HWND_BOTTOM : Z := 1.
Definition SWP_NOSIZE : Z := 1.
Definition SWP_NOMOVE : Z := 2.
Definition SWP_NOZORDER : Z := 4.
Definition SWP_FRAMECHANGED : Z := 32.
Definition SWP_SHOWWINDOW : Z := 64.
Definition SWP_HIDEWINDOW : Z := 128.
Definition MONITOR_DEFAULTTONULL : Z := 0.
Definition MONITOR_DEFAULTTOPRIMARY : Z := 1.
Definition MONITOR_DEFAULTTONEAREST : Z := 2.
Definition MONITORINFOF_PRIMARY : Z := 1.
Definition ERROR_ACCESS_DENIED : Z := 5.
Definition ERROR_INVALID_WINDOW_HANDLE : Z := 1400.
Definition ERROR_INVALID_MONITOR_HANDLE : Z := 1461.
End con.

(** ** The window manager *)

(** A top-level window.  Its visibility is the [WS_VISIBLE] bit of [style].
    [elevated] marks a window owned by a process of higher integrity than
    the caller: the window manager rejects the caller's writes to it. *)
Record Window : Type := mkWindow {
  title : string;
  style : Z;
  rect : RECT;
  menu : option HMENU;
  elevated : bool
}.

Record Monitor : Type := mkMonitor {
  hmonitor : HMONITOR;
  bounds : RECT;
  work : RECT;
  primary : bool
}.

(** The dictionary [GetMonitorInfo] returns, with its keys ["Monitor"],
    ["Work"] and ["Flags"]; the two rectangles are tuples. *)
Record MonitorInfo : Type := mkMonitorInfo {
  Monitor_ : list Z;
  Work_ : list Z;
  Flags_ : Z
}.

(** What the script does to the outside, in the order it does it. *)
Inductive Call : Type :=
| EnumWindows_
| IsWindowVisible_ (hwnd : HWND)
| GetWindowText_ (hwnd : HWND)
| SetMenu_ (hwnd : HWND) (hmenu : option HMENU)
| SetWindowLong_ (hwnd : HWND) (index value : Z)
| MonitorFromWindow_ (hwnd : HWND) (flags : Z)
| GetMonitorInfo_ (hmon : HMONITOR)
| SetWindowPos_ (hwnd : HWND) (insert_after x y cx cy flags : Z)
| print_ (handles : list HWND).

(** The state the script runs in.  [toplevel] lists the windows in the
    order of enumeration (the Z order, topmost first); [enum_fault] is the
    error code with which the enumeration facility itself breaks down, if
    it does; [windows] is the list that [get_windows] creates and its
    callback appends to; [trace] is the record of calls so far. *)
Record State : Type := mkState {
  toplevel : list (HWND * Window);
  monitors : list Monitor;
  enum_fault : option Z;
  windows : list HWND;
  trace : list Call
}.

Definition set_toplevel (f : list (HWND * Window) -> list (HWND * Window))
    (s : State) : State :=
  mkState (f (toplevel s)) (monitors s) (enum_fault s) (windows s) (trace s).

Definition set_windows (f : list HWND -> list HWND) (s : State) : State :=
  mkState (toplevel s) (monitors s) (enum_fault s) (f (windows s)) (trace s).

Definition record_call (c : Call) (s : State) : State :=
  mkState (toplevel s) (monitors s) (enum_fault s) (windows s) (trace s ++ [c]).

Fixpoint find_window (h : HWND) (l : list (HWND * Window)) : option Window :=
  match l with
  | [] => None
  | (h', w) :: l' => if h =? h' then Some w else find_window h l'
  end.

Fixpoint update_window (h : HWND) (w : Window) (l : list (HWND * Window))
  : list (HWND * Window) :=
  match l with
  | [] => []
  | (h', w') :: l' =>
      if h =? h' then (h, w) :: l' else (h', w') :: update_window h w l'
  end.

Fixpoint remove_window (h : HWND) (l : list (HWND * Window))
  : list (HWND * Window) :=
  match l with
  | [] => []
  | (h', w') :: l' => if h =? h' then l' else (h', w') :: remove_window h l'
  end.

Definition has_flag (flags bit : Z) : bool := negb (Z.land flags bit =? 0).

(** A [LONG] is 32 bits wide, two's complement. *)
Definition wrap32 (v : Z) : Z := (v + 2147483648) mod 4294967296 - 2147483648.

Definition with_style (v : Z) (w : Window) : Window :=
  mkWindow (title w) v (rect w) (menu w) (elevated w).

Definition with_rect (r : RECT) (w : Window) : Window :=
  mkWindow (title w) (style w) r (menu w) (elevated w).

Definition with_menu (m : option HMENU) (w : Window) : Window :=
  mkWindow (title w) (style w) (rect w) m (elevated w).

(** *** Monitors and rectangles *)

Definition intersection_area (a b : RECT) : Z :=
  let '(l1, t1, r1, b1) := a in
  let '(l2, t2, r2, b2) := b in
  Z.max 0 (Z.min r1 r2 - Z.max l1 l2) * Z.max 0 (Z.min b1 b2 - Z.max t1 t2).

(** Squared distance between two rectangles, 0 when they touch or overlap. *)
Definition rect_distance (a b : RECT) : Z :=
  let '(l1, t1, r1, b1) := a in
  let '(l2, t2, r2, b2) := b in
  let dx := Z.max 0 (Z.max (l2 - r1) (l1 - r2)) in
  let dy := Z.max 0 (Z.max (t2 - b1) (t1 - b2)) in
  dx * dx + dy * dy.

(** The first monitor of the list with the greatest score. *)
Fixpoint best_monitor (score : Monitor -> Z) (ms : list Monitor)
  : option Monitor :=
  match ms with
  | [] => None
  | m :: ms' =>
      match best_monitor score ms' with
      | Some m' => if score m' >? score m then Some m' else Some m
      | None => Some m
      end
  end.

Definition primary_monitor (ms : list Monitor) : HMONITOR :=
  match find primary ms with
  | Some m => hmonitor m
  | None => 0
  end.

(** The monitor with the largest area of intersection with the rectangle;
    when the rectangle meets no monitor, the flags choose: nothing, the
    primary monitor, or the nearest one. *)
Definition monitor_from_rect (r : RECT) (flags : Z) (ms : list Monitor)
  : HMONITOR :=
  match best_monitor (fun m => intersection_area r (bounds m)) ms with
  | Some m =>
      if intersection_area r (bounds m) >? 0 then hmonitor m
      else if flags =? con.MONITOR_DEFAULTTONEAREST then
        match best_monitor (fun m => - rect_distance r (bounds m)) ms with
        | Some m' => hmonitor m'
        | None => 0
        end
      else if flags =? con.MONITOR_DEFAULTTOPRIMARY then primary_monitor ms
      else 0
  | None => 0
  end.

Fixpoint find_monitor (h : HMONITOR) (ms : list Monitor) : option Monitor :=
  match ms with
  | [] => None
  | m :: ms' => if h =? hmonitor m then Some m else find_monitor h ms'
  end.

(** ** The monad of the script: state, exceptions, trace *)

Definition M (A : Type) : Type := State -> result A * State.

Definition ret {A} (a : A) : M A := fun s => (Ok a, s).

Definition bind {A B} (m : M A) (k : A -> M B) : M B :=
  fun s =>
    match m s with
    | (Ok a, s') => k a s'
    | (Raise e, s') => (Raise e, s')
    end.

Definition raise {A} (e : exn) : M A := fun s => (Raise e, s).

(** [try: body / except <those exceptions>: handler].  The state changes
    the body made before it raised stay, as in Python. *)
Definition try_except {A} (body : M A) (caught : exn -> bool) (handler : M A)
  : M A :=
  fun s =>
    match body s with
    | (Ok a, s') => (Ok a, s')
    | (Raise e, s') => if caught e then handler s' else (Raise e, s')
    end.

Definition pass : M unit := ret tt.

Declare Scope py_scope.
Delimit Scope py_scope with py.
Notation "x <- m ;; k" := (bind m (fun x => k))
  (at level 61, m at next level, right associativity) : py_scope.
Notation "m ;; k" := (bind m (fun _ => k))
  (at level 61, right associativity) : py_scope.
Local Open Scope py_scope.

(** [for x in l: body x] *)
Fixpoint for_in {A} (l : list A) (body : A -> M unit) : M unit :=
  match l with
  | [] => ret tt
  | x :: l' => body x ;; for_in l' body
  end.

(** [[f x for x in l]] *)
Fixpoint list_comprehension {A B} (f : A -> M B) (l : list A) : M (list B) :=
  match l with
  | [] => ret []
  | x :: l' =>
      y <- f x ;;
      ys <- list_comprehension f l' ;;
      ret (y :: ys)
  end.

Definition is_StopIteration (e : exn) : bool :=
  match e with StopIteration => true | _ => false end.

Definition print (handles : list HWND) : M unit :=
  fun s => (Ok tt, record_call (print_ handles) s).

(** The list [windows] of [get_windows]: [windows = []],
    [windows.append(hwnd)], and reading it. *)
Definition windows_assign (l : list HWND) : M unit :=
  fun s => (Ok tt, set_windows (fun _ => l) s).

Definition windows_append (hwnd : HWND) : M unit :=
  fun s => (Ok tt, set_windows (fun l => l ++ [hwnd]) s).

Definition windows_read : M (list HWND) :=
  fun s => (Ok (windows s), s).

(** ** [win32gui] *)

Module gui.

(** False for a handle that is no window. *)
Definition IsWindowVisible (hwnd : HWND) : M bool :=
  fun s =>
    let s := record_call (IsWindowVisible_ hwnd) s in
    match find_window hwnd (toplevel s) with
    | Some w => (Ok (has_flag (style w) con.WS_VISIBLE), s)
    | None => (Ok false, s)
    end.

(** The empty string for a handle that is no window. *)
Definition GetWindowText (hwnd : HWND) : M string :=
  fun s =>
    let s := record_call (GetWindowText_ hwnd) s in
    match find_window hwnd (toplevel s) with
    | Some w => (Ok (title w), s)
    | None => (Ok EmptyString, s)
    end.

(** The callback is called once for each window of the list taken when
    the enumeration starts; an exception of the callback ends the
    enumeration and leaves [EnumWindows] as it is. *)
Fixpoint enumerate (callback : HWND -> M unit) (handles : list HWND)
  : M unit :=
  match handles with
  | [] => ret tt
  | hwnd :: rest => callback hwnd ;; enumerate callback rest
  end.

Definition EnumWindows (callback : HWND -> unit -> M unit) (ctx : unit)
  : M unit :=
  fun s =>
    let s := record_call EnumWindows_ s in
    match enum_fault s with
    | Some code => (Raise (pywintypes_error code "EnumWindows"), s)
    | None =>
        enumerate (fun hwnd => callback hwnd ctx) (map fst (toplevel s)) s
    end.

(** A write to a window by a call that reports its failure: refused for
    a handle that is no window and for a window of a process the caller
    may not touch. *)
Definition write_window (funcname : string) (hwnd : HWND)
    (k : Window -> M unit) : M unit :=
  fun s =>
    match find_window hwnd (toplevel s) with
    | None =>
        (Raise (pywintypes_error con.ERROR_INVALID_WINDOW_HANDLE funcname), s)
    | Some w =>
        if elevated w
        then (Raise (pywintypes_error con.ERROR_ACCESS_DENIED funcname), s)
        else k w s
    end.

Definition SetMenu (hwnd : HWND) (hmenu : option HMENU) : M unit :=
  fun s =>
    write_window "SetMenu" hwnd
      (fun w s' =>
         (Ok tt, set_toplevel (update_window hwnd (with_menu hmenu w)) s'))
      (record_call (SetMenu_ hwnd hmenu) s).

(** [win32gui.SetWindowLong] hands back what [SetWindowLongPtr] returns
    and checks no error: on a handle that is no window, or on a window
    the caller may not write to, the call changes nothing and raises
    nothing.  Only the style word is modelled; another index changes
    nothing.  The previous word, which the call returns, is not used by
    the script and is left out. *)
Definition SetWindowLong (hwnd : HWND) (index value : Z) : M unit :=
  fun s =>
    let s := record_call (SetWindowLong_ hwnd index value) s in
    match find_window hwnd (toplevel s) with
    | Some w =>
        if negb (elevated w) && (index =? con.GWL_STYLE)
        then (Ok tt,
              set_toplevel (update_window hwnd (with_style (wrap32 value) w)) s)
        else (Ok tt, s)
    | None => (Ok tt, s)
    end.

(** Position and size are in screen coordinates, as for every top-level
    window.  Of the insert-after values only [HWND_TOP] and
    [HWND_BOTTOM] are modelled; another one leaves the Z order.  The
    desktop modelled has no always-on-top windows, behind which
    [HWND_TOP] would leave the window: the top is the first place. *)
Definition SetWindowPos (hwnd : HWND) (insert_after x y cx cy flags : Z)
  : M unit :=
  fun s =>
    write_window "SetWindowPos" hwnd
      (fun w s' =>
         let '(l, t, r, b) := rect w in
         let '(l', t') :=
           if has_flag flags con.SWP_NOMOVE then (l, t) else (x, y) in
         let '(cx', cy') :=
           if has_flag flags con.SWP_NOSIZE then (r - l, b - t) else (cx, cy) in
         let style' :=
           if has_flag flags con.SWP_SHOWWINDOW
           then Z.lor (style w) con.WS_VISIBLE
           else if has_flag flags con.SWP_HIDEWINDOW
           then Z.land (style w) (Z.lnot con.WS_VISIBLE)
           else style w in
         let w' := with_style style' (with_rect (l', t', l' + cx', t' + cy') w) in
         let place :=
           if has_flag flags con.SWP_NOZORDER then update_window hwnd w'
           else if insert_after =? con.HWND_TOP
           then fun ws => (hwnd, w') :: remove_window hwnd ws
           else if insert_after =? con.HWND_BOTTOM
           then fun ws => remove_window hwnd ws ++ [(hwnd, w')]
           else update_window hwnd w' in
         (Ok tt, set_toplevel place s'))
      (record_call (SetWindowPos_ hwnd insert_after x y cx cy flags) s).

End gui.

(** ** [win32api] *)

Module api.

(** A handle that is no window has no rectangle: the flags alone
    choose, and the nearest monitor is then the primary one. *)
Definition MonitorFromWindow (hwnd : HWND) (flags : Z) : M HMONITOR :=
  fun s =>
    let s := record_call (MonitorFromWindow_ hwnd flags) s in
    match find_window hwnd (toplevel s) with
    | Some w => (Ok (monitor_from_rect (rect w) flags (monitors s)), s)
    | None =>
        if flags =? con.MONITOR_DEFAULTTONULL then (Ok 0, s)
        else (Ok (primary_monitor (monitors s)), s)
    end.

Definition GetMonitorInfo (hmon : HMONITOR) : M MonitorInfo :=
  fun s =>
    let s := record_call (GetMonitorInfo_ hmon) s in
    match find_monitor hmon (monitors s) with
    | Some m =>
        (Ok (mkMonitorInfo (tuple_of_rect (bounds m)) (tuple_of_rect (work m))
               (if primary m then con.MONITORINFOF_PRIMARY else 0)), s)
    | None =>
        (Raise (pywintypes_error con.ERROR_INVALID_MONITOR_HANDLE
                  "GetMonitorInfo"), s)
    end.

End api.

(** ** [re] *)

Module re.

(** [re.I], the flag [re.IGNORECASE]. *)
Definition I : Z := 2.

(** What the script needs of a regular-expression engine: compiling a
    pattern under flags, and whether a compiled pattern is found
    somewhere in a text ([pattern.search(text)] is not [None]). *)
Class Engine : Type := {
  Pattern : Type;
  compile : string -> Z -> result Pattern;
  search : Pattern -> string -> bool
}.

End re.

Definition of_result {A} (r : result A) : M A := fun s => (r, s).

(** *** A small engine, for the examples

    Text is its UTF-8 bytes.  A pattern of ASCII characters none of which
    is special matches itself; under [re.I] a letter matches both of its
    cases, and [i], [s] and [k] match also the letters outside ASCII that
    Python folds to them (U+0130 and U+0131, U+017F, U+212A).  A pattern
    that begins with a quantifier is malformed ([re.error], nothing to
    repeat).  The engine covers no other pattern: what it answers to one
    is [re_unsupported], which says nothing about Python. *)

Module literal.

Definition is_special (c : ascii) : bool :=
  existsb (Ascii.eqb c)
    (list_ascii_of_string ".^$*+?{}[]\|()").

Definition is_quantifier (c : ascii) : bool :=
  existsb (Ascii.eqb c) (list_ascii_of_string "*+?").

Definition is_ascii (c : ascii) : bool := Nat.ltb (nat_of_ascii c) 128.

Definition lower (c : ascii) : ascii :=
  let n := nat_of_ascii c in
  if (andb (Nat.leb 65 n) (Nat.leb n 90)) then ascii_of_nat (n + 32) else c.

Definition upper (c : ascii) : ascii :=
  let n := nat_of_ascii c in
  if (andb (Nat.leb 97 n) (Nat.leb n 122)) then ascii_of_nat (n - 32) else c.

Record Pattern : Type := mkPattern {
  pattern : string;
  flags : Z
}.

Definition compile (pat : string) (flags : Z) : result Pattern :=
  match pat with
  | String c _ =>
      if is_quantifier c then Raise (re_error pat)
      else if existsb (fun c => is_special c || negb (is_ascii c))
                (list_ascii_of_string pat)
      then Raise (re_unsupported pat)
      else Ok (mkPattern pat flags)
  | EmptyString => Ok (mkPattern pat flags)
  end.

Definition utf8 (bytes : list nat) : string :=
  string_of_list_ascii (map ascii_of_nat bytes).

(** What an ASCII character of a pattern matches in a text. *)
Definition spellings (ignorecase : bool) (a : ascii) : list string :=
  if ignorecase then
    String (lower a) EmptyString :: String (upper a) EmptyString
    :: (if Ascii.eqb (lower a) "i"%char then [utf8 [196; 176]%nat; utf8 [196; 177]%nat]
        else if Ascii.eqb (lower a) "s"%char then [utf8 [197; 191]%nat]
        else if Ascii.eqb (lower a) "k"%char then [utf8 [226; 132; 170]%nat]
        else [])
  else [String a EmptyString].

(** The text without the prefix, when it begins with it. *)
Fixpoint strip_prefix (prefix text : string) : option string :=
  match prefix, text with
  | EmptyString, _ => Some text
  | String _ _, EmptyString => None
  | String a prefix', String b text' =>
      if Ascii.eqb a b then strip_prefix prefix' text' else None
  end.

(** The pattern matches at the start of the text. *)
Fixpoint match_here (ignorecase : bool) (pat text : string) : bool :=
  match pat with
  | EmptyString => true
  | String a pat' =>
      existsb
        (fun spelling =>
           match strip_prefix spelling text with
           | Some rest => match_here ignorecase pat' rest
           | None => false
           end)
        (spellings ignorecase a)
  end.

(** The pattern matches at some position of the text. *)
Fixpoint match_anywhere (ignorecase : bool) (pat text : string) : bool :=
  match_here ignorecase pat text
  || match text with
     | EmptyString => false
     | String _ text' => match_anywhere ignorecase pat text'
     end.

Definition search (p : Pattern) (text : string) : bool :=
  match_anywhere (has_flag (flags p) re.I) (pattern p) text.

#[global] Instance engine : re.Engine := {
  re.Pattern := Pattern;
  re.compile := compile;
  re.search := search
}.

End literal.

(** ** The script *)

(** The namespace [ArgumentParser.parse_args] returns. *)
Module Args.
Record t : Type := mk {
  patterns : list string;
  all_matches : bool;
  case_insensitive : bool;
  monitor : Z;
  remove_decorations : bool
}.
End Args.

Definition BORDERLESS_STYLE : Z :=
  Z.lor (Z.lor con.WS_VISIBLE con.WS_POPUP) con.WS_CLIPCHILDREN.

Section Script.

Context {engine : re.Engine}.

(** The closure [_callback] of [get_windows]. *)
Definition _callback (patterns : list re.Pattern) (all_matches : bool)
    (hwnd : HWND) (ctx : unit) : M unit :=
  visible <- gui.IsWindowVisible hwnd ;;
  if visible then
    title <- gui.GetWindowText hwnd ;;
    if existsb (fun pattern => re.search pattern title) patterns then
      windows_append hwnd ;;
      if negb all_matches then raise StopIteration else ret tt
    else ret tt
  else ret tt.

Definition get_windows (patterns : list re.Pattern) (all_matches : bool)
  : M (list HWND) :=
  windows_assign [] ;;
  try_except
    (gui.EnumWindows (_callback patterns all_matches) tt)
    is_StopIteration
    pass ;;
  windows_read.

Definition get_monitor (hwnd : HWND) : M MonitorInfo :=
  hmon <- api.MonitorFromWindow hwnd con.MONITOR_DEFAULTTONEAREST ;;
  api.GetMonitorInfo hmon.

Definition strip_decorations (hwnd : HWND) : M unit :=
  gui.SetMenu hwnd None.

Definition make_fullscreen (hwnd : HWND) : M unit :=
  gui.SetWindowLong hwnd con.GWL_STYLE BORDERLESS_STYLE ;;
  info <- get_monitor hwnd ;;
  match skipn 2 (Monitor_ info) with
  | [width; height] =>
      gui.SetWindowPos hwnd con.HWND_TOP 0 0 width height
        (Z.lor con.SWP_FRAMECHANGED con.SWP_SHOWWINDOW)
  | _ => raise ValueError
  end.

Definition main (args : Args.t) : M Z :=
  patterns <-
    list_comprehension
      (fun pat =>
         of_result
           (re.compile pat (if Args.case_insensitive args then re.I else 0)))
      (Args.patterns args) ;;
  matches <- get_windows patterns (Args.all_matches args) ;;
  print matches ;;
  for_in matches (fun window => make_fullscreen window) ;;
  ret 0.

End Script.

(** ** Observations *)

Definition window_visible (w : Window) : bool :=
  has_flag (style w) con.WS_VISIBLE.

(** The calls made from state [s] to the later state [s']. *)
Definition calls_since (s s' : State) : list Call :=
  skipn (List.length (trace s)) (trace s').

(** The steps of a transition, on window [h]. *)
Definition is_style_mutation (h : HWND) (c : Call) : bool :=
  match c with
  | SetWindowLong_ h' index _ => (h' =? h) && (index =? con.GWL_STYLE)
  | _ => false
  end.

Definition is_monitor_resolution (h : HWND) (c : Call) : bool :=
  match c with
  | MonitorFromWindow_ h' _ => h' =? h
  | _ => false
  end.

Definition is_geometry_mutation (h : HWND) (c : Call) : bool :=
  match c with
  | SetWindowPos_ h' _ _ _ _ _ _ => h' =? h
  | _ => false
  end.

Definition is_menu_removal (c : Call) : bool :=
  match c with
  | SetMenu_ _ None => true
  | _ => false
  end.

(** A write to window [h], of any kind. *)
Definition is_write_to (h : HWND) (c : Call) : bool :=
  match c with
  | SetMenu_ h' _ | SetWindowLong_ h' _ _ | SetWindowPos_ h' _ _ _ _ _ _ =>
      h' =? h
  | _ => false
  end.

(** Position of the first call of a kind. *)
Fixpoint first_index (p : Call -> bool) (calls : list Call) : option nat :=
  match calls with
  | [] => None
  | c :: calls' =>
      if p c then Some O else option_map S (first_index p calls')
  end.

(** A call of kind [p] is made, and before any call of kind [q]. *)
Definition precedes (p q : Call -> bool) (calls : list Call) : bool :=
  match first_index p calls, first_index q calls with
  | Some i, Some j => Nat.ltb i j
  | Some _, None => true
  | None, _ => false
  end.

(** The windows the enumeration callback looked at, in order. *)
Definition visited (calls : list Call) : list HWND :=
  flat_map (fun c => match c with IsWindowVisible_ h => [h] | _ => [] end)
    calls.

(** The calls of one run of the callback on a window. *)
Definition visit (tl : list (HWND * Window)) (h : HWND) : list Call :=
  match find_window h tl with
  | Some w =>
      if window_visible w then [IsWindowVisible_ h; GetWindowText_ h]
      else [IsWindowVisible_ h]
  | None => [IsWindowVisible_ h]
  end.

(** The handles of a list up to and including the first that satisfies
    [f]; the whole list when none does. *)
Fixpoint upto_first (f : HWND -> bool) (hs : list HWND) : list HWND :=
  match hs with
  | [] => []
  | h :: hs' => if f h then [h] else h :: upto_first f hs'
  end.

Section Selection.

Context {engine : re.Engine}.

Definition title_matches (patterns : list re.Pattern) (w : Window) : bool :=
  existsb (fun pattern => re.search pattern (title w)) patterns.

(** The handle is a visible window whose title some pattern matches. *)
Definition selected (patterns : list re.Pattern)
    (tl : list (HWND * Window)) (h : HWND) : bool :=
  match find_window h tl with
  | Some w => window_visible w && title_matches patterns w
  | None => false
  end.

(** What [get_windows] returns and which windows it looks at, by
    policy, when the enumeration works. *)
Definition found (patterns : list re.Pattern) (all_matches : bool)
    (s : State) : list HWND :=
  let hits :=
    filter (selected patterns (toplevel s)) (map fst (toplevel s)) in
  if all_matches then hits else firstn 1 hits.

Definition seen (patterns : list re.Pattern) (all_matches : bool)
    (s : State) : list HWND :=
  if all_matches then map fst (toplevel s)
  else upto_first (selected patterns (toplevel s)) (map fst (toplevel s)).

End Selection.

(** The rectangle of which [(right, bottom)] are the far corner and the
    screen origin the near one. *)
Definition origin_to (r : RECT) : RECT :=
  let '(_, _, rt, b) := r in (0, 0, rt, b).

(** What a successful transition makes of a window on a monitor. *)
Definition fullscreen_on (m : Monitor) (w : Window) : Window :=
  mkWindow (title w) BORDERLESS_STYLE (origin_to (bounds m)) (menu w)
    (elevated w).

Definition far_corner (r : RECT) : Z * Z :=
  let '(_, _, rt, b) := r in (rt, b).

(** The monitor a transition resolves for a window: the one
    [MonitorFromWindow] names under [MONITOR_DEFAULTTONEAREST], if
    [GetMonitorInfo] knows it. *)
Definition nearest_monitor (ms : list Monitor) (w : Window) : option Monitor :=
  find_monitor (monitor_from_rect (rect w) con.MONITOR_DEFAULTTONEAREST ms) ms.

(** The calls of a transition of window [h] that resolves monitor [m]. *)
Definition transition_calls (h : HWND) (m : Monitor) : list Call :=
  [ SetWindowLong_ h con.GWL_STYLE BORDERLESS_STYLE;
    MonitorFromWindow_ h con.MONITOR_DEFAULTTONEAREST;
    GetMonitorInfo_ (hmonitor m);
    SetWindowPos_ h con.HWND_TOP 0 0
      (fst (far_corner (bounds m))) (snd (far_corner (bounds m)))
      (Z.lor con.SWP_FRAMECHANGED con.SWP_SHOWWINDOW) ].

(** The state a successful transition of window [h] leaves. *)
Definition after_fullscreen (h : HWND) (w : Window) (m : Monitor) (s : State)
  : State :=
  mkState ((h, fullscreen_on m w) :: remove_window h (toplevel s))
    (monitors s) (enum_fault s) (windows s)
    (trace s ++ transition_calls h m).

(** The state after the callback has looked at window [h], and after it
    has also appended [h] to [windows]. *)
Definition looked_at (h : HWND) (s : State) : State :=
  mkState (toplevel s) (monitors s) (enum_fault s) (windows s)
    (trace s ++ visit (toplevel s) h).

Definition collected (h : HWND) (s : State) : State :=
  set_windows (fun l => l ++ [h]) (looked_at h s).

(** The state [get_windows] leaves when the enumeration works. *)
Definition after_get_windows (found seen : list HWND) (s : State) : State :=
  mkState (toplevel s) (monitors s) (enum_fault s) found
    (trace s ++ EnumWindows_ :: flat_map (visit (toplevel s)) seen).

(** The values of a list of results, or the first error among them. *)
Fixpoint all_ok {A} (rs : list (result A)) : result (list A) :=
  match rs with
  | [] => Ok []
  | Raise e :: _ => Raise e
  | Ok a :: rs' =>
      match all_ok rs' with
      | Ok l => Ok (a :: l)
      | Raise e => Raise e
      end
  end.

(** The state with further calls recorded and nothing else changed. *)
Definition with_calls (calls : list Call) (s : State) : State :=
  mkState (toplevel s) (monitors s) (enum_fault s) (windows s)
    (trace s ++ calls).

(** The monitor handle that [MonitorFromWindow] gives for a handle under
    [MONITOR_DEFAULTTONEAREST], and the error code with which a write to
    it is refused, if it is: the handle is no window, or a window of a
    process the caller may not touch. *)
Definition monitor_handle_of (s : State) (h : HWND) : HMONITOR :=
  match find_window h (toplevel s) with
  | Some w =>
      monitor_from_rect (rect w) con.MONITOR_DEFAULTTONEAREST (monitors s)
  | None => primary_monitor (monitors s)
  end.

Definition refusal_code (s : State) (h : HWND) : Z :=
  match find_window h (toplevel s) with
  | Some _ => con.ERROR_ACCESS_DENIED
  | None => con.ERROR_INVALID_WINDOW_HANDLE
  end.

(** How the transition of a window that takes no write ends: by the
    error of [SetWindowPos], or before it by that of [GetMonitorInfo]
    when the monitor handle is unknown; and the calls made until then. *)
Definition refused_transition (s : State) (h : HWND) : exn * list Call :=
  match find_monitor (monitor_handle_of s h) (monitors s) with
  | Some m =>
      (pywintypes_error (refusal_code s h) "SetWindowPos",
       transition_calls h m)
  | None =>
      (pywintypes_error con.ERROR_INVALID_MONITOR_HANDLE "GetMonitorInfo",
       [ SetWindowLong_ h con.GWL_STYLE BORDERLESS_STYLE;
         MonitorFromWindow_ h con.MONITOR_DEFAULTTONEAREST;
         GetMonitorInfo_ (monitor_handle_of s h) ])
  end.

(** ** Example desktops *)

Module Desk.

(** [WS_OVERLAPPEDWINDOW | WS_VISIBLE] *)
Definition overlapped : Z := 282001408.

Definition game : Window :=
  mkWindow "my game window" overlapped (100, 100, 740, 580) None false.

Definition notepad : Window :=
  mkWindow "Untitled - Notepad" overlapped (10, 10, 300, 300) (Some 77) false.

Definition hidden_game : Window :=
  mkWindow "Game Launcher" 0 (10, 10, 300, 300) None false.

Definition full_hd : Monitor :=
  mkMonitor 1 (0, 0, 1920, 1080) (0, 0, 1920, 1040) true.

(** One monitor of 1920 x 1080 and one window at (100, 100), 640 wide
    and 480 high. *)
Definition single : State :=
  mkState [(100, game)] [full_hd] None [] [].

Definition left_monitor : Monitor :=
  mkMonitor 1 (0, 0, 2560, 1440) (0, 0, 2560, 1400) true.

Definition right_monitor : Monitor :=
  mkMonitor 2 (2560, 0, 4480, 1080) (2560, 0, 4480, 1040) false.

Definition editor : Window :=
  mkWindow "Game editor" overlapped (2600, 100, 3240, 580) (Some 77) false.

(** Two monitors side by side, the primary one on the left, and a
    window with a menu that lies on the right one. *)
Definition dual : State :=
  mkState [(101, notepad); (102, editor); (103, hidden_game)]
    [left_monitor; right_monitor] None [] [].

Definition protected_game : Window :=
  mkWindow "Game (administrator)" overlapped (0, 0, 800, 600) None true.

(** Three windows that "Game" matches when letter case is ignored; the
    second is of a process the caller may not touch. *)
Definition guarded : State :=
  mkState [(200, game); (201, protected_game); (202, game)] [full_hd]
    None [] [].

Definition args (all_matches case_insensitive remove_decorations : bool)
  : Args.t :=
  Args.mk ["Game"%string] all_matches case_insensitive 0 remove_decorations.

(** The compiled pattern "Game". *)
Definition game_pattern (flags : Z) : list (@re.Pattern literal.engine) :=
  [literal.mkPattern "Game" flags].

End Desk.

(** ** Further observations *)

(** A write to a window, whichever. *)
Definition is_write (c : Call) : bool :=
  match c with
  | SetMenu_ _ _ | SetWindowLong_ _ _ _ | SetWindowPos_ _ _ _ _ _ _ _ => true
  | _ => false
  end.

(** A call that [make_fullscreen] makes. *)
Definition is_transition_call (c : Call) : bool :=
  match c with
  | SetWindowLong_ _ _ _ | MonitorFromWindow_ _ _ | GetMonitorInfo_ _
  | SetWindowPos_ _ _ _ _ _ _ _ => true
  | _ => false
  end.

(** The handle is a window that accepts writes. *)
Definition writable (tl : list (HWND * Window)) (h : HWND) : bool :=
  match find_window h tl with
  | Some w => negb (elevated w)
  | None => false
  end.

(** More desktops. *)
Module Cases.

(** A window and no monitor at all. *)
Definition headless : State :=
  mkState [(100, Desk.game)] [] None [] [].

(** A desktop whose enumeration breaks down, with error code 8. *)
Definition broken : State :=
  mkState [(100, Desk.game)] [Desk.full_hd] (Some 8) [] [].

(** The patterns "Game" and "Notepad", compiled. *)
Definition two_patterns (flags : Z) : list (@re.Pattern literal.engine) :=
  [literal.mkPattern "Game" flags; literal.mkPattern "Notepad" flags].

End Cases.

(** * Proofs *)

(** Unfold the updates of a state and read the fields of the result. *)
Ltac state_simpl :=
  unfold set_toplevel, set_windows, record_call;
  cbn [toplevel monitors enum_fault windows trace].

(** ** Running the monad *)

Lemma bind_ok {A B} (m : M A) (k : A -> M B) s a s1 :
  m s = (Ok a, s1) -> bind m k s = k a s1.
Proof. intros H. unfold bind. rewrite H. reflexivity. Qed.

Lemma bind_raise {A B} (m : M A) (k : A -> M B) s e s1 :
  m s = (Raise e, s1) -> bind m k s = (Raise e, s1).
Proof. intros H. unfold bind. rewrite H. reflexivity. Qed.

Lemma calls_since_app s s' calls :
  trace s' = trace s ++ calls -> calls_since s s' = calls.
Proof.
  intros H. unfold calls_since. rewrite H.
  rewrite skipn_app, skipn_all, Nat.sub_diag. reflexivity.
Qed.

(** ** The list of windows *)

Lemma find_update_same h w l :
  find_window h (update_window h w l)
  = match find_window h l with Some _ => Some w | None => None end.
Proof.
  induction l as [|[h' w'] l IH]; simpl; [reflexivity|].
  destruct (Z.eqb_spec h h') as [->|Hne]; simpl.
  - rewrite Z.eqb_refl. reflexivity.
  - destruct (Z.eqb_spec h h'); [contradiction|]. exact IH.
Qed.

Lemma find_update_other h h' w l :
  h' <> h -> find_window h' (update_window h w l) = find_window h' l.
Proof.
  intros Hne. induction l as [|[k w'] l IH]; simpl; [reflexivity|].
  destruct (Z.eqb_spec h k) as [->|Hk]; simpl.
  - destruct (Z.eqb_spec h' k); [contradiction|reflexivity].
  - destruct (Z.eqb_spec h' k); [reflexivity|exact IH].
Qed.

Lemma find_remove_other h h' l :
  h' <> h -> find_window h' (remove_window h l) = find_window h' l.
Proof.
  intros Hne. induction l as [|[k w'] l IH]; simpl; [reflexivity|].
  destruct (Z.eqb_spec h k) as [->|Hk]; simpl.
  - destruct (Z.eqb_spec h' k); [contradiction|reflexivity].
  - destruct (Z.eqb_spec h' k); [reflexivity|exact IH].
Qed.

Lemma remove_update h w l :
  remove_window h (update_window h w l) = remove_window h l.
Proof.
  induction l as [|[k w'] l IH]; simpl; [reflexivity|].
  destruct (Z.eqb_spec h k) as [->|Hk]; simpl.
  - rewrite Z.eqb_refl. reflexivity.
  - destruct (Z.eqb_spec h k); [contradiction|]. rewrite IH. reflexivity.
Qed.

Lemma find_monitor_handle h ms m :
  find_monitor h ms = Some m -> hmonitor m = h.
Proof.
  induction ms as [|m' ms IH]; simpl; [discriminate|].
  destruct (Z.eqb_spec h (hmonitor m')) as [->|Hne].
  - intros [= ->]. reflexivity.
  - exact IH.
Qed.

(** ** The window-manager calls of a transition *)

Lemma SetWindowLong_style_ok s h v w :
  find_window h (toplevel s) = Some w ->
  elevated w = false ->
  gui.SetWindowLong h con.GWL_STYLE v s
  = (Ok tt,
     set_toplevel (update_window h (with_style (wrap32 v) w))
       (record_call (SetWindowLong_ h con.GWL_STYLE v) s)).
Proof.
  intros Hw He. unfold gui.SetWindowLong.
  cbn [toplevel record_call]. rewrite Hw, He. reflexivity.
Qed.

Lemma SetWindowLong_unwritable s h i v :
  writable (toplevel s) h = false ->
  gui.SetWindowLong h i v s = (Ok tt, record_call (SetWindowLong_ h i v) s).
Proof.
  unfold writable, gui.SetWindowLong. cbn [toplevel record_call].
  destruct (find_window h (toplevel s)) as [w|]; [|reflexivity].
  intros He. rewrite He. reflexivity.
Qed.

Lemma SetWindowPos_unwritable s h a x y cx cy f :
  writable (toplevel s) h = false ->
  gui.SetWindowPos h a x y cx cy f s
  = (Raise (pywintypes_error (refusal_code s h) "SetWindowPos"),
     record_call (SetWindowPos_ h a x y cx cy f) s).
Proof.
  unfold writable, gui.SetWindowPos, gui.write_window, refusal_code.
  cbn [toplevel record_call].
  destruct (find_window h (toplevel s)) as [w|]; [|reflexivity].
  destruct (elevated w); [reflexivity|discriminate].
Qed.

Lemma SetWindowPos_top_ok s h x y cx cy w :
  find_window h (toplevel s) = Some w ->
  elevated w = false ->
  gui.SetWindowPos h con.HWND_TOP x y cx cy
    (Z.lor con.SWP_FRAMECHANGED con.SWP_SHOWWINDOW) s
  = (Ok tt,
     set_toplevel
       (fun ws =>
          (h, mkWindow (title w) (Z.lor (style w) con.WS_VISIBLE)
                (x, y, x + cx, y + cy) (menu w) (elevated w))
          :: remove_window h ws)
       (record_call
          (SetWindowPos_ h con.HWND_TOP x y cx cy
             (Z.lor con.SWP_FRAMECHANGED con.SWP_SHOWWINDOW)) s)).
Proof.
  intros Hw He. unfold gui.SetWindowPos, gui.write_window.
  cbn [toplevel record_call]. rewrite Hw.
  destruct w as [ti st [[[l t] r] b] mn el]. cbn in He. subst el.
  reflexivity.
Qed.

Lemma get_monitor_run s h :
  get_monitor h s
  = api.GetMonitorInfo (monitor_handle_of s h)
      (record_call (MonitorFromWindow_ h con.MONITOR_DEFAULTTONEAREST) s).
Proof.
  unfold get_monitor, bind, api.MonitorFromWindow, monitor_handle_of.
  cbn [toplevel record_call monitors].
  destruct (find_window h (toplevel s)); reflexivity.
Qed.

Lemma GetMonitorInfo_ok s hmon m :
  find_monitor hmon (monitors s) = Some m ->
  api.GetMonitorInfo hmon s
  = (Ok (mkMonitorInfo (tuple_of_rect (bounds m)) (tuple_of_rect (work m))
           (if primary m then con.MONITORINFOF_PRIMARY else 0)),
     record_call (GetMonitorInfo_ hmon) s).
Proof.
  intros Hm. unfold api.GetMonitorInfo.
  cbn [monitors record_call]. rewrite Hm. reflexivity.
Qed.

Lemma GetMonitorInfo_unknown s hmon :
  find_monitor hmon (monitors s) = None ->
  api.GetMonitorInfo hmon s
  = (Raise (pywintypes_error con.ERROR_INVALID_MONITOR_HANDLE "GetMonitorInfo"),
     record_call (GetMonitorInfo_ hmon) s).
Proof.
  intros Hm. unfold api.GetMonitorInfo.
  cbn [monitors record_call]. rewrite Hm. reflexivity.
Qed.

(** ** [make_fullscreen], case by case *)

Lemma writable_window tl h :
  writable tl h = true ->
  exists w, find_window h tl = Some w /\ elevated w = false.
Proof.
  unfold writable. destruct (find_window h tl) as [w|]; [|discriminate].
  intros He. apply negb_true_iff in He. eauto.
Qed.

Lemma make_fullscreen_ok s h w m :
  find_window h (toplevel s) = Some w ->
  elevated w = false ->
  nearest_monitor (monitors s) w = Some m ->
  make_fullscreen h s = (Ok tt, after_fullscreen h w m s).
Proof.
  intros Hw He Hm. unfold make_fullscreen.
  rewrite (bind_ok _ _ _ _ _ (SetWindowLong_style_ok s h _ w Hw He)).
  set (s1 := set_toplevel _ _).
  assert (Hw1 : find_window h (toplevel s1)
                = Some (with_style (wrap32 BORDERLESS_STYLE) w)).
  { unfold s1. cbn [toplevel set_toplevel record_call].
    rewrite find_update_same, Hw. reflexivity. }
  assert (Hinfo : get_monitor h s1
    = (Ok (mkMonitorInfo (tuple_of_rect (bounds m)) (tuple_of_rect (work m))
           (if primary m then con.MONITORINFOF_PRIMARY else 0)),
       record_call (GetMonitorInfo_ (hmonitor m))
         (record_call (MonitorFromWindow_ h con.MONITOR_DEFAULTTONEAREST) s1))).
  { rewrite get_monitor_run. unfold monitor_handle_of.
    rewrite Hw1. cbn [rect with_style].
    change (monitors s1) with (monitors s).
    rewrite (find_monitor_handle _ _ _ Hm).
    apply GetMonitorInfo_ok. exact Hm. }
  rewrite (bind_ok _ _ _ _ _ Hinfo). cbn [Monitor_].
  destruct (bounds m) as [[[l t] r] b] eqn:Hb.
  cbn [tuple_of_rect skipn].
  rewrite (SetWindowPos_top_ok _ h 0 0 r b (with_style (wrap32 BORDERLESS_STYLE) w)).
  - unfold after_fullscreen, transition_calls, fullscreen_on, origin_to.
    rewrite Hb. cbn [far_corner fst snd].
    unfold s1. state_simpl.
    rewrite remove_update, <- !app_assoc. reflexivity.
  - exact Hw1.
  - exact He.
Qed.

(** On a handle that takes no write, [SetWindowLong] passes in silence
    and the transition goes on to its first call that reports a failure. *)
Lemma make_fullscreen_unwritable s h :
  writable (toplevel s) h = false ->
  make_fullscreen h s
  = (Raise (fst (refused_transition s h)),
     with_calls (snd (refused_transition s h)) s).
Proof.
  intros Hno. unfold make_fullscreen.
  rewrite (bind_ok _ _ _ _ _ (SetWindowLong_unwritable s h _ _ Hno)).
  set (s1 := record_call _ s).
  assert (Hno1 : writable (toplevel s1) h = false) by exact Hno.
  unfold refused_transition.
  change (monitor_handle_of s h) with (monitor_handle_of s1 h).
  change (monitors s) with (monitors s1).
  destruct (find_monitor (monitor_handle_of s1 h) (monitors s1)) as [m|] eqn:Hm.
  - rewrite (bind_ok _ _ _ _ _
               (eq_trans (get_monitor_run s1 h)
                  (GetMonitorInfo_ok
                     (record_call
                        (MonitorFromWindow_ h con.MONITOR_DEFAULTTONEAREST) s1)
                     _ m Hm))).
    cbn [Monitor_ fst snd].
    destruct (bounds m) as [[[l t] r] b] eqn:Hb. cbn [tuple_of_rect skipn].
    rewrite SetWindowPos_unwritable by exact Hno.
    unfold transition_calls. rewrite Hb, (find_monitor_handle _ _ _ Hm).
    cbn [far_corner fst snd]. unfold with_calls, s1. state_simpl.
    rewrite <- !app_assoc. reflexivity.
  - rewrite (bind_raise _ _ _ _ _
               (eq_trans (get_monitor_run s1 h)
                  (GetMonitorInfo_unknown
                     (record_call
                        (MonitorFromWindow_ h con.MONITOR_DEFAULTTONEAREST) s1)
                     _ Hm))).
    cbn [fst snd]. unfold with_calls, s1. state_simpl.
    rewrite <- !app_assoc. reflexivity.
Qed.

Lemma make_fullscreen_no_monitor s h w :
  find_window h (toplevel s) = Some w ->
  elevated w = false ->
  nearest_monitor (monitors s) w = None ->
  make_fullscreen h s
  = (Raise (pywintypes_error con.ERROR_INVALID_MONITOR_HANDLE "GetMonitorInfo"),
     mkState (update_window h (with_style BORDERLESS_STYLE w) (toplevel s))
       (monitors s) (enum_fault s) (windows s)
       (trace s ++
        [ SetWindowLong_ h con.GWL_STYLE BORDERLESS_STYLE;
          MonitorFromWindow_ h con.MONITOR_DEFAULTTONEAREST;
          GetMonitorInfo_
            (monitor_from_rect (rect w) con.MONITOR_DEFAULTTONEAREST
               (monitors s)) ])).
Proof.
  intros Hw He Hm. unfold make_fullscreen.
  rewrite (bind_ok _ _ _ _ _ (SetWindowLong_style_ok s h _ w Hw He)).
  apply bind_raise.
  rewrite get_monitor_run. unfold monitor_handle_of.
  cbn [toplevel set_toplevel record_call monitors].
  rewrite find_update_same, Hw. cbn [rect with_style].
  rewrite GetMonitorInfo_unknown by exact Hm.
  state_simpl.
  rewrite <- !app_assoc. reflexivity.
Qed.

(** Those are all the cases there are. *)
Lemma make_fullscreen_success s h s' :
  make_fullscreen h s = (Ok tt, s') ->
  exists w m,
    find_window h (toplevel s) = Some w /\ elevated w = false /\
    nearest_monitor (monitors s) w = Some m /\
    s' = after_fullscreen h w m s.
Proof.
  intros Hrun.
  destruct (writable (toplevel s) h) eqn:Hok.
  2:{ rewrite (make_fullscreen_unwritable s h Hok) in Hrun. discriminate. }
  destruct (writable_window _ _ Hok) as (w & Hw & He).
  destruct (nearest_monitor (monitors s) w) as [m|] eqn:Hm.
  2:{ rewrite (make_fullscreen_no_monitor s h w Hw He Hm) in Hrun.
      discriminate. }
  rewrite (make_fullscreen_ok s h w m Hw He Hm) in Hrun.
  injection Hrun as <-. exists w, m. auto.
Qed.

(** ** The enumeration *)

Section Enumeration.

Context {engine : re.Engine}.
Variable patterns : list re.Pattern.

Lemma callback_run all_matches h s :
  _callback patterns all_matches h tt s
  = if selected patterns (toplevel s) h
    then (if all_matches then Ok tt else Raise StopIteration, collected h s)
    else (Ok tt, looked_at h s).
Proof.
  unfold _callback, selected, collected, looked_at, visit, title_matches,
    window_visible, bind, gui.IsWindowVisible, gui.GetWindowText,
    windows_append, raise, ret, set_windows, record_call.
  cbn [toplevel monitors enum_fault windows trace].
  destruct (find_window h (toplevel s)) as [w|] eqn:Hw; [|reflexivity].
  destruct (has_flag (style w) con.WS_VISIBLE);
    cbn [andb toplevel monitors enum_fault windows trace]; [|reflexivity].
  rewrite Hw, <- app_assoc. cbn [app].
  destruct (existsb _ patterns); [|reflexivity].
  destruct all_matches; reflexivity.
Qed.

(** Under the all-matches policy the enumeration runs to its end and
    collects the selected windows in the order of enumeration. *)
Lemma enumerate_all hs : forall s,
  gui.enumerate (fun h => _callback patterns true h tt) hs s
  = (Ok tt,
     mkState (toplevel s) (monitors s) (enum_fault s)
       (windows s ++ filter (selected patterns (toplevel s)) hs)
       (trace s ++ flat_map (visit (toplevel s)) hs)).
Proof.
  induction hs as [|h hs IH]; intros s.
  - cbn. rewrite !app_nil_r. destruct s; reflexivity.
  - cbn [gui.enumerate filter flat_map]. unfold bind at 1.
    rewrite callback_run.
    destruct (selected patterns (toplevel s) h); rewrite IH;
      unfold collected, looked_at, set_windows;
      cbn [toplevel monitors enum_fault windows trace];
      rewrite <- !app_assoc; reflexivity.
Qed.

(** Under the first-match policy it ends at the first selected window,
    by [StopIteration], having collected that window alone. *)
Lemma enumerate_first hs : forall s,
  gui.enumerate (fun h => _callback patterns false h tt) hs s
  = (if existsb (selected patterns (toplevel s)) hs
     then Raise StopIteration else Ok tt,
     mkState (toplevel s) (monitors s) (enum_fault s)
       (windows s ++ firstn 1 (filter (selected patterns (toplevel s)) hs))
       (trace s ++
        flat_map (visit (toplevel s))
          (upto_first (selected patterns (toplevel s)) hs))).
Proof.
  induction hs as [|h hs IH]; intros s.
  - cbn. rewrite !app_nil_r. destruct s; reflexivity.
  - cbn [gui.enumerate filter flat_map existsb upto_first]. unfold bind at 1.
    rewrite callback_run.
    destruct (selected patterns (toplevel s) h).
    + cbn [orb firstn flat_map]. rewrite app_nil_r. reflexivity.
    + rewrite IH. unfold looked_at.
      cbn [orb toplevel monitors enum_fault windows trace flat_map].
      rewrite <- !app_assoc. reflexivity.
Qed.

Lemma get_windows_run all_matches s :
  enum_fault s = None ->
  get_windows patterns all_matches s
  = (Ok (found patterns all_matches s),
     after_get_windows (found patterns all_matches s) (seen patterns all_matches s) s).
Proof.
  intros Hf.
  unfold get_windows, found, seen, after_get_windows, bind, windows_assign,
    try_except, gui.EnumWindows, windows_read, pass, ret, set_windows,
    record_call.
  cbn [toplevel monitors enum_fault windows trace]. rewrite Hf.
  destruct all_matches.
  - rewrite enumerate_all.
    cbn [toplevel monitors enum_fault windows trace app].
    rewrite <- app_assoc. reflexivity.
  - rewrite enumerate_first.
    cbn [toplevel monitors enum_fault windows trace app].
    rewrite <- app_assoc.
    destruct (existsb _ _); reflexivity.
Qed.

Lemma get_windows_fault all_matches s code :
  enum_fault s = Some code ->
  get_windows patterns all_matches s
  = (Raise (pywintypes_error code "EnumWindows"),
     mkState (toplevel s) (monitors s) (enum_fault s) []
       (trace s ++ [EnumWindows_])).
Proof.
  intros Hf.
  unfold get_windows, bind, windows_assign, try_except, gui.EnumWindows,
    set_windows, record_call.
  cbn [toplevel monitors enum_fault windows trace]. rewrite Hf.
  reflexivity.
Qed.

End Enumeration.

(** ** Lists of handles *)

Lemma find_window_In h w l :
  find_window h l = Some w -> In (h, w) l.
Proof.
  induction l as [|[k w'] l IH]; simpl; [discriminate|].
  destruct (Z.eqb_spec h k) as [->|Hne].
  - intros [= ->]. left. reflexivity.
  - intros H. right. exact (IH H).
Qed.

Lemma In_find_window h w l :
  NoDup (map fst l) -> In (h, w) l -> find_window h l = Some w.
Proof.
  induction l as [|[k w'] l IH]; simpl; [contradiction|].
  intros Hnd [Heq|Hin].
  - injection Heq as -> ->. rewrite Z.eqb_refl. reflexivity.
  - inversion Hnd as [|? ? Hk Hnd']; subst.
    destruct (Z.eqb_spec h k) as [->|Hne].
    + exfalso. apply Hk. change k with (fst (k, w)). apply in_map. exact Hin.
    + exact (IH Hnd' Hin).
Qed.

Lemma find_window_listed h w l :
  find_window h l = Some w -> In h (map fst l).
Proof.
  intros H. change h with (fst (h, w)). apply in_map, find_window_In, H.
Qed.

Lemma filter_none {A} (f : A -> bool) l :
  (forall x, f x = false) -> filter f l = [].
Proof.
  intros Hf. induction l as [|x l IH]; simpl; [reflexivity|].
  rewrite Hf. exact IH.
Qed.

Lemma visited_visit tl hs :
  visited (flat_map (visit tl) hs) = hs.
Proof.
  induction hs as [|h hs IH]; [reflexivity|].
  cbn [flat_map]. unfold visited in *. rewrite flat_map_app, IH.
  unfold visit. destruct (find_window h tl) as [w|]; [|reflexivity].
  destruct (window_visible w); reflexivity.
Qed.

Lemma visited_enumeration s s' hs :
  trace s' = trace s ++ EnumWindows_ :: flat_map (visit (toplevel s)) hs ->
  visited (calls_since s s') = hs.
Proof.
  intros H. rewrite (calls_since_app _ _ _ H).
  change (visited (EnumWindows_ :: ?l)) with (visited l).
  apply visited_visit.
Qed.

(** [upto_first] cuts the list after the first element that satisfies [f]. *)
Lemma upto_first_split f hs :
  exists rest,
    hs = upto_first f hs ++ rest /\
    (filter f hs = [] -> rest = []) /\
    (forall h, firstn 1 (filter f hs) = [h] ->
       f h = true /\
       exists before,
         upto_first f hs = before ++ [h] /\
         forall x, In x before -> f x = false).
Proof.
  induction hs as [|a hs (rest & Hsplit & Hnone & Hsome)].
  - exists []. split; [reflexivity|]. split; [reflexivity|].
    intros h Hh. discriminate Hh.
  - cbn [upto_first filter]. destruct (f a) eqn:Ha.
    + exists hs. split; [reflexivity|]. split; [discriminate|].
      cbn [firstn]. intros h [= <-]. split; [exact Ha|].
      exists []. split; [reflexivity|]. intros x [].
    + exists rest. split; [cbn; f_equal; exact Hsplit|].
      split; [exact Hnone|].
      intros h Hh. destruct (Hsome h Hh) as (Hfh & before & Hb & Hall).
      split; [exact Hfh|].
      exists (a :: before). split; [cbn; f_equal; exact Hb|].
      intros x [<-|Hx]; [exact Ha|exact (Hall x Hx)].
Qed.

Lemma firstn_1_In {A} (l : list A) x : In x (firstn 1 l) -> In x l.
Proof. destruct l as [|a l]; simpl; [tauto|]. intros [<-|[]]. left. reflexivity. Qed.

Lemma firstn_1_length {A} (l : list A) : (List.length (firstn 1 l) <= 1)%nat.
Proof. destruct l; simpl; lia. Qed.

(** ** Claims about [get_windows] *)

Section Discovery.

Context {engine : re.Engine}.

Lemma selected_spec patterns tl h :
  selected patterns tl h = true <->
  exists w,
    find_window h tl = Some w /\ window_visible w = true /\
    exists pattern,
      In pattern patterns /\ re.search pattern (title w) = true.
Proof.
  unfold selected, title_matches. split.
  - destruct (find_window h tl) as [w|]; [|discriminate].
    intros H. apply andb_true_iff in H as [Hv Hm].
    apply existsb_exists in Hm. exists w. auto.
  - intros (w & -> & Hv & Hm). apply andb_true_iff. split; [exact Hv|].
    apply existsb_exists. exact Hm.
Qed.

(** C4: under the all-matches policy [get_windows] returns without
    error, and a handle is in its result exactly when it is a visible
    top-level window whose title at least one pattern matches; the result
    has no duplicates; with no pattern at all it is empty. *)
Theorem get_windows_all_matches patterns s :
  enum_fault s = None ->
  NoDup (map fst (toplevel s)) ->
  exists result s',
    get_windows patterns true s = (Ok result, s') /\
    (forall h,
       In h result <->
       exists w,
         In (h, w) (toplevel s) /\ window_visible w = true /\
         exists pattern,
           In pattern patterns /\ re.search pattern (title w) = true) /\
    NoDup result /\
    (patterns = [] -> result = []) /\
    toplevel s' = toplevel s.
Proof.
  intros Hf Hnd. rewrite (get_windows_run patterns true s Hf).
  eexists. eexists. split; [reflexivity|]. unfold found.
  split; [|split; [|split]].
  - intros h. rewrite filter_In, selected_spec. split.
    + intros (_ & w & Hw & Hrest). exists w.
      split; [exact (find_window_In _ _ _ Hw)|exact Hrest].
    + intros (w & Hin & Hrest).
      pose proof (In_find_window _ _ _ Hnd Hin) as Hw.
      split; [exact (find_window_listed _ _ _ Hw)|].
      exists w. split; [exact Hw|exact Hrest].
  - apply NoDup_filter. exact Hnd.
  - intros ->. apply filter_none. intros h. unfold selected, title_matches.
    destruct (find_window h (toplevel s)); [|reflexivity].
    cbn. apply andb_false_r.
  - reflexivity.
Qed.

Lemma filter_empty {A} (f : A -> bool) l :
  filter f l = [] <-> forall x, In x l -> f x = false.
Proof.
  induction l as [|a l IH]; cbn [filter].
  - split; [intros _ x []|reflexivity].
  - destruct (f a) eqn:Ha.
    + split; [discriminate|]. intros Hall.
      rewrite (Hall a (or_introl eq_refl)) in Ha. discriminate.
    + rewrite IH. split.
      * intros Hall x [<-|Hx]; [exact Ha|exact (Hall x Hx)].
      * intros Hall x Hx. apply Hall. right. exact Hx.
Qed.

(** C5: under the first-match policy [get_windows] returns at most one
    handle: the first window of the enumeration that is visible and whose
    title a pattern matches, which is the first of the handles that the
    all-matches policy returns; it returns none only when no window is
    such.  The callback has then looked at the windows up to that one,
    none of which before it is such, and at no window after it. *)
Theorem get_windows_first_match patterns s :
  enum_fault s = None ->
  exists result s' every s'',
    get_windows patterns false s = (Ok result, s') /\
    get_windows patterns true s = (Ok every, s'') /\
    every = filter (selected patterns (toplevel s)) (map fst (toplevel s)) /\
    (List.length result <= 1)%nat /\
    result = firstn 1 every /\
    (forall h, In h result -> In h every) /\
    (forall h, In h result -> selected patterns (toplevel s) h = true) /\
    (result = [] <->
     forall h, In h (map fst (toplevel s)) ->
       selected patterns (toplevel s) h = false) /\
    exists unvisited,
      map fst (toplevel s) = visited (calls_since s s') ++ unvisited /\
      (result = [] -> unvisited = []) /\
      (forall h, result = [h] ->
         exists before,
           visited (calls_since s s') = before ++ [h] /\
           forall x, In x before -> selected patterns (toplevel s) x = false).
Proof.
  intros Hf.
  rewrite (get_windows_run patterns false s Hf),
    (get_windows_run patterns true s Hf).
  do 4 eexists. split; [reflexivity|]. split; [reflexivity|].
  unfold found, seen.
  split; [reflexivity|].
  split; [apply firstn_1_length|]. split; [reflexivity|].
  split; [intros h; apply firstn_1_In|].
  split.
  { intros h Hin. apply firstn_1_In, filter_In in Hin. exact (proj2 Hin). }
  split.
  { rewrite <- filter_empty.
    destruct (filter _ _); cbn [firstn]; split; congruence. }
  rewrite (visited_enumeration s (after_get_windows _ _ s) _ eq_refl).
  destruct (upto_first_split (selected patterns (toplevel s))
              (map fst (toplevel s))) as (rest & Hsplit & Hnone & Hsome).
  exists rest. split; [exact Hsplit|]. split.
  - intros Hempty. apply Hnone.
    destruct (filter _ _); [reflexivity|discriminate].
  - intros h Hh. exact (proj2 (Hsome h Hh)).
Qed.

(** C10: [get_windows] returns a list whenever the enumeration facility
    works, under either policy; [StopIteration] never leaves it, although
    under the first-match policy the callback does raise it through
    [EnumWindows] as soon as a window is selected. *)
Theorem get_windows_returns :
  (forall patterns all_matches s,
     enum_fault s = None ->
     exists result s',
       get_windows patterns all_matches s = (Ok result, s')) /\
  (forall patterns all_matches s,
     fst (get_windows patterns all_matches s) <> Raise StopIteration) /\
  (forall patterns s,
     enum_fault s = None ->
     existsb (selected patterns (toplevel s)) (map fst (toplevel s)) = true ->
     fst (gui.EnumWindows (_callback patterns false) tt s)
     = Raise StopIteration).
Proof.
  split; [|split].
  - intros patterns all_matches s Hf.
    rewrite (get_windows_run patterns all_matches s Hf).
    eexists. eexists. reflexivity.
  - intros patterns all_matches s.
    destruct (enum_fault s) as [code|] eqn:Hf.
    + rewrite (get_windows_fault patterns all_matches s code Hf).
      discriminate.
    + rewrite (get_windows_run patterns all_matches s Hf). discriminate.
  - intros patterns s Hf Hsome. unfold gui.EnumWindows, record_call.
    cbn [enum_fault toplevel]. rewrite Hf, enumerate_first.
    cbn [fst toplevel]. rewrite Hsome. reflexivity.
Qed.

End Discovery.

(** ** Claims about [make_fullscreen] *)

Lemma find_after_fullscreen h w m s :
  find_window h (toplevel (after_fullscreen h w m s)) = Some (fullscreen_on m w).
Proof. cbn. rewrite Z.eqb_refl. reflexivity. Qed.

Lemma find_after_fullscreen_other h h' w m s :
  h' <> h ->
  find_window h' (toplevel (after_fullscreen h w m s))
  = find_window h' (toplevel s).
Proof.
  intros Hne. cbn. destruct (Z.eqb_spec h' h); [contradiction|].
  apply find_remove_other. exact Hne.
Qed.

(** The rectangle a successful transition leaves: from the screen origin
    to the far corner of the resolved monitor. *)
Lemma make_fullscreen_rect s h s' :
  make_fullscreen h s = (Ok tt, s') ->
  exists w m w',
    find_window h (toplevel s) = Some w /\
    nearest_monitor (monitors s) w = Some m /\
    find_window h (toplevel s') = Some w' /\
    rect w' = origin_to (bounds m).
Proof.
  intros Hrun.
  destruct (make_fullscreen_success s h s' Hrun) as (w & m & Hw & _ & Hm & ->).
  exists w, m, (fullscreen_on m w).
  split; [exact Hw|]. split; [exact Hm|].
  split; [apply find_after_fullscreen|reflexivity].
Qed.

(** On a monitor whose own origin is the screen origin, that rectangle is
    the monitor's. *)
Lemma make_fullscreen_covers_monitor_at_origin s h s' :
  make_fullscreen h s = (Ok tt, s') ->
  exists w m w',
    find_window h (toplevel s) = Some w /\
    nearest_monitor (monitors s) w = Some m /\
    find_window h (toplevel s') = Some w' /\
    (forall r b, bounds m = (0, 0, r, b) -> rect w' = bounds m).
Proof.
  intros Hrun.
  destruct (make_fullscreen_rect s h s' Hrun) as (w & m & w' & Hw & Hm & Hw' & Hr).
  exists w, m, w'. repeat (split; [assumption|]).
  intros r b Hb. rewrite Hr, Hb. reflexivity.
Qed.

Lemma make_fullscreen_single_monitor :
  exists s' w',
    make_fullscreen 100 Desk.single = (Ok tt, s') /\
    find_window 100 (toplevel s') = Some w' /\
    rect w' = (0, 0, 1920, 1080) /\
    rect w' = bounds Desk.full_hd.
Proof. do 2 eexists. repeat split. Qed.

(** C1, at a window on a monitor to the right of the primary one: the
    transition succeeds and leaves the window from the screen origin to
    the far corner of the resolved monitor, across both monitors, which is
    not the rectangle of the resolved monitor. *)
Theorem make_fullscreen_right_monitor :
  exists s' w',
    make_fullscreen 102 Desk.dual = (Ok tt, s') /\
    nearest_monitor (monitors Desk.dual) Desk.editor
    = Some Desk.right_monitor /\
    bounds Desk.right_monitor = (2560, 0, 4480, 1080) /\
    find_window 102 (toplevel s') = Some w' /\
    rect w' = (0, 0, 4480, 1080) /\
    rect w' <> bounds Desk.right_monitor.
Proof.
  do 2 eexists.
  split; [reflexivity|]. split; [reflexivity|]. split; [reflexivity|].
  split; [reflexivity|]. split; [reflexivity|]. discriminate.
Qed.

(** C2 as stated fails: in a transition on the one-monitor desktop the
    style is overwritten first and the monitor resolved second. *)
Lemma monitor_resolved_after_style :
  exists s',
    make_fullscreen 100 Desk.single = (Ok tt, s') /\
    precedes (is_monitor_resolution 100) (is_style_mutation 100)
      (calls_since Desk.single s') = false /\
    precedes (is_style_mutation 100) (is_monitor_resolution 100)
      (calls_since Desk.single s') = true.
Proof. eexists. repeat split. Qed.

(** C2, amended: a successful transition makes exactly four calls, in
    this order: it overwrites the style, resolves the monitor, reads the
    monitor's rectangle, sets the geometry.  The monitor is resolved after
    the style is overwritten and before the geometry is; it is the one of
    the rectangle the window had before the transition. *)
Theorem make_fullscreen_order s h s' :
  make_fullscreen h s = (Ok tt, s') ->
  exists w m,
    find_window h (toplevel s) = Some w /\
    nearest_monitor (monitors s) w = Some m /\
    calls_since s s' = transition_calls h m /\
    precedes (is_style_mutation h) (is_monitor_resolution h)
      (calls_since s s') = true /\
    precedes (is_monitor_resolution h) (is_geometry_mutation h)
      (calls_since s s') = true.
Proof.
  intros Hrun.
  destruct (make_fullscreen_success s h s' Hrun) as (w & m & Hw & _ & Hm & ->).
  exists w, m. split; [exact Hw|]. split; [exact Hm|].
  rewrite (calls_since_app s (after_fullscreen h w m s) _ eq_refl).
  split; [reflexivity|].
  unfold precedes, transition_calls.
  cbn [first_index is_style_mutation is_monitor_resolution
         is_geometry_mutation option_map].
  rewrite !Z.eqb_refl. split; reflexivity.
Qed.

(** C6: a transition of a window that exists and may be written to
    overwrites its style with the constant [WS_VISIBLE | WS_POPUP |
    WS_CLIPCHILDREN], whatever the style was, and whether or not a later
    step of the transition fails. *)
Theorem make_fullscreen_style s h w :
  find_window h (toplevel s) = Some w ->
  elevated w = false ->
  exists w',
    find_window h (toplevel (snd (make_fullscreen h s))) = Some w' /\
    style w' = Z.lor (Z.lor con.WS_VISIBLE con.WS_POPUP) con.WS_CLIPCHILDREN /\
    In (SetWindowLong_ h con.GWL_STYLE
          (Z.lor (Z.lor con.WS_VISIBLE con.WS_POPUP) con.WS_CLIPCHILDREN))
      (calls_since s (snd (make_fullscreen h s))).
Proof.
  intros Hw He.
  destruct (nearest_monitor (monitors s) w) as [m|] eqn:Hm.
  - rewrite (make_fullscreen_ok s h w m Hw He Hm). cbn [snd].
    exists (fullscreen_on m w). split; [apply find_after_fullscreen|].
    split; [reflexivity|].
    rewrite (calls_since_app s (after_fullscreen h w m s) _ eq_refl).
    left. reflexivity.
  - rewrite (make_fullscreen_no_monitor s h w Hw He Hm). cbn [snd].
    exists (with_style BORDERLESS_STYLE w).
    split; [cbn [toplevel]; rewrite find_update_same, Hw; reflexivity|].
    split; [reflexivity|].
    erewrite calls_since_app by reflexivity.
    left. reflexivity.
Qed.

(** The style after a second successful transition is the style after the
    first. *)
Lemma make_fullscreen_twice_style s h s1 s2 :
  make_fullscreen h s = (Ok tt, s1) ->
  make_fullscreen h s1 = (Ok tt, s2) ->
  exists w1 w2,
    find_window h (toplevel s1) = Some w1 /\
    find_window h (toplevel s2) = Some w2 /\
    style w2 = style w1.
Proof.
  intros H1 H2.
  destruct (make_fullscreen_success _ _ _ H1) as (w & m & _ & _ & _ & ->).
  destruct (make_fullscreen_success _ _ _ H2) as (w' & m' & _ & _ & _ & ->).
  exists (fullscreen_on m w), (fullscreen_on m' w').
  split; [apply find_after_fullscreen|].
  split; [apply find_after_fullscreen|reflexivity].
Qed.

(** With one monitor, the second transition leaves every window as the
    first left it. *)
Lemma make_fullscreen_twice_one_monitor s h s1 s2 m :
  monitors s = [m] ->
  make_fullscreen h s = (Ok tt, s1) ->
  make_fullscreen h s1 = (Ok tt, s2) ->
  toplevel s2 = toplevel s1.
Proof.
  intros Hms H1 H2.
  destruct (make_fullscreen_success _ _ _ H1) as (w & m1 & _ & _ & Hm1 & ->).
  destruct (make_fullscreen_success _ _ _ H2) as (w' & m2 & Hw' & _ & Hm2 & ->).
  rewrite find_after_fullscreen in Hw'. injection Hw' as <-.
  cbn [monitors after_fullscreen] in Hm2. rewrite Hms in Hm1, Hm2.
  assert (Hone : forall x v, nearest_monitor [m] x = Some v -> v = m).
  { intros x v. unfold nearest_monitor. cbn [find_monitor].
    destruct (_ =? _); [intros [= <-]; reflexivity|discriminate]. }
  apply Hone in Hm1, Hm2. subst m1 m2.
  cbn [toplevel after_fullscreen remove_window]. rewrite Z.eqb_refl.
  reflexivity.
Qed.

(** C7, at a window on the monitor to the right of a larger primary one:
    two transitions in a row, the monitors unchanged, leave the same style
    but not the same rectangle.  The first leaves the window across both
    monitors, so the second resolves the primary monitor. *)
Theorem make_fullscreen_twice_right_monitor :
  exists s1 s2 w1 w2,
    make_fullscreen 102 Desk.dual = (Ok tt, s1) /\
    make_fullscreen 102 s1 = (Ok tt, s2) /\
    monitors s1 = monitors Desk.dual /\
    find_window 102 (toplevel s1) = Some w1 /\
    find_window 102 (toplevel s2) = Some w2 /\
    style w2 = style w1 /\
    rect w1 = (0, 0, 4480, 1080) /\
    rect w2 = (0, 0, 2560, 1440) /\
    rect w2 <> rect w1.
Proof.
  do 4 eexists.
  split; [reflexivity|]. split; [reflexivity|]. split; [reflexivity|].
  split; [reflexivity|]. split; [reflexivity|]. split; [reflexivity|].
  split; [reflexivity|]. split; [reflexivity|]. discriminate.
Qed.

(** ** The driver *)

Lemma for_in_stops {A} (body : A -> M unit) before x rest : forall s s1 e s2,
  for_in before body s = (Ok tt, s1) ->
  body x s1 = (Raise e, s2) ->
  for_in (before ++ x :: rest) body s = (Raise e, s2).
Proof.
  induction before as [|a before IH]; intros s s1 e s2 Hbefore Hx.
  - cbn in Hbefore. injection Hbefore as <-.
    cbn [app for_in]. apply bind_raise. exact Hx.
  - cbn [app for_in] in *. unfold bind in *.
    destruct (body a s) as [[[]|e'] s'] eqn:Ha; [|discriminate].
    exact (IH _ _ _ _ Hbefore Hx).
Qed.

Lemma transition_calls_own h h' m :
  h' <> h -> existsb (is_write_to h') (transition_calls h m) = false.
Proof.
  intros Hne. unfold transition_calls. cbn.
  rewrite (proj2 (Z.eqb_neq h h')) by congruence. reflexivity.
Qed.

(** A transition writes to its own window only and removes no menu,
    whatever its outcome. *)
Lemma make_fullscreen_frame s h r s' :
  make_fullscreen h s = (r, s') ->
  exists calls,
    trace s' = trace s ++ calls /\
    existsb is_menu_removal calls = false /\
    forall h', h' <> h ->
      existsb (is_write_to h') calls = false /\
      find_window h' (toplevel s') = find_window h' (toplevel s).
Proof.
  intros Hrun.
  assert (Hcall : forall h' i v, h' <> h ->
            is_write_to h' (SetWindowLong_ h i v) = false).
  { intros h' i v Hne. cbn. apply Z.eqb_neq. congruence. }
  destruct (writable (toplevel s) h) eqn:Hok.
  - destruct (writable_window _ _ Hok) as (w & Hw & He).
    destruct (nearest_monitor (monitors s) w) as [m|] eqn:Hm.
    + rewrite (make_fullscreen_ok s h w m Hw He Hm) in Hrun.
      injection Hrun as <- <-. eexists.
      split; [reflexivity|]. split; [reflexivity|].
      intros h' Hne. split; [|apply find_after_fullscreen_other; exact Hne].
      apply transition_calls_own. exact Hne.
    + rewrite (make_fullscreen_no_monitor s h w Hw He Hm) in Hrun.
      injection Hrun as <- <-. eexists.
      split; [reflexivity|]. split; [reflexivity|].
      intros h' Hne. cbn [existsb toplevel]. rewrite Hcall by exact Hne.
      split; [reflexivity|apply find_update_other; exact Hne].
  - rewrite (make_fullscreen_unwritable s h Hok) in Hrun.
    injection Hrun as <- <-. exists (snd (refused_transition s h)).
    split; [reflexivity|]. unfold refused_transition.
    destruct (find_monitor _ _) as [m|]; cbn [snd].
    + split; [reflexivity|]. intros h' Hne.
      split; [apply transition_calls_own; exact Hne|reflexivity].
    + split; [reflexivity|]. intros h' Hne. cbn [existsb].
      rewrite Hcall by exact Hne. split; reflexivity.
Qed.

Lemma existsb_app_false {A} (f : A -> bool) l1 l2 :
  existsb f l1 = false -> existsb f l2 = false -> existsb f (l1 ++ l2) = false.
Proof. intros H1 H2. rewrite existsb_app, H1, H2. reflexivity. Qed.

Lemma for_in_frame hs : forall s r s',
  for_in hs (fun window => make_fullscreen window) s = (r, s') ->
  exists calls,
    trace s' = trace s ++ calls /\
    existsb is_menu_removal calls = false /\
    forall h', ~ In h' hs ->
      existsb (is_write_to h') calls = false /\
      find_window h' (toplevel s') = find_window h' (toplevel s).
Proof.
  induction hs as [|h hs IH]; intros s r s' Hrun.
  - cbn in Hrun. injection Hrun as <- <-. exists [].
    rewrite app_nil_r. split; [reflexivity|]. split; [reflexivity|].
    intros h' _. split; reflexivity.
  - cbn [for_in] in Hrun. unfold bind in Hrun.
    destruct (make_fullscreen h s) as [r1 s1] eqn:H1.
    destruct (make_fullscreen_frame _ _ _ _ H1) as (c1 & Ht1 & Hm1 & Hf1).
    destruct r1 as [[]|e].
    + destruct (IH _ _ _ Hrun) as (c2 & Ht2 & Hm2 & Hf2).
      exists (c1 ++ c2). split; [rewrite Ht2, Ht1, app_assoc; reflexivity|].
      split; [apply existsb_app_false; assumption|].
      intros h' Hnot.
      assert (Hne : h' <> h) by (intros ->; apply Hnot; left; reflexivity).
      assert (Hnot' : ~ In h' hs) by (intros Hin; apply Hnot; right; exact Hin).
      destruct (Hf1 h' Hne) as [Hc1 Hw1]. destruct (Hf2 h' Hnot') as [Hc2 Hw2].
      split; [apply existsb_app_false; assumption|congruence].
    + injection Hrun as <- <-. exists c1. split; [exact Ht1|].
      split; [exact Hm1|].
      intros h' Hnot. apply Hf1. intros ->. apply Hnot. left. reflexivity.
Qed.

(** The enumeration callback only reads. *)
Lemma visit_reads_only (p : Call -> bool) tl hs :
  (forall h, p (IsWindowVisible_ h) = false) ->
  (forall h, p (GetWindowText_ h) = false) ->
  existsb p (flat_map (visit tl) hs) = false.
Proof.
  intros Hv Ht. induction hs as [|h hs IH]; [reflexivity|].
  cbn [flat_map]. apply existsb_app_false; [|exact IH].
  unfold visit. destruct (find_window h tl) as [w|]; cbn [existsb].
  - destruct (window_visible w); cbn [existsb]; rewrite ?Hv, ?Ht; reflexivity.
  - rewrite Hv. reflexivity.
Qed.

Lemma visit_no_write tl h' hs :
  existsb (is_write_to h') (flat_map (visit tl) hs) = false.
Proof. apply visit_reads_only; reflexivity. Qed.

Section Driver.

Context {engine : re.Engine}.

Lemma get_windows_success patterns all_matches s result s' :
  get_windows patterns all_matches s = (Ok result, s') ->
  result = found patterns all_matches s /\
  s' = after_get_windows result (seen patterns all_matches s) s.
Proof.
  intros Hrun. destruct (enum_fault s) as [code|] eqn:Hf.
  - rewrite (get_windows_fault patterns all_matches s code Hf) in Hrun.
    discriminate.
  - rewrite (get_windows_run patterns all_matches s Hf) in Hrun.
    injection Hrun as <- <-. split; reflexivity.
Qed.

(** [main], once the patterns are compiled and the windows found. *)
Lemma main_run args s patterns matches s1 :
  list_comprehension
    (fun pat =>
       of_result
         (re.compile pat (if Args.case_insensitive args then re.I else 0)))
    (Args.patterns args) s = (Ok patterns, s) ->
  get_windows patterns (Args.all_matches args) s = (Ok matches, s1) ->
  main args s
  = (let (r, s2) :=
       for_in matches (fun window => make_fullscreen window)
         (record_call (print_ matches) s1) in
     (match r with Ok _ => Ok 0 | Raise e => Raise e end, s2)).
Proof.
  intros Hc Hg. unfold main.
  rewrite (bind_ok _ _ _ _ _ Hc), (bind_ok _ _ _ _ _ Hg).
  unfold bind, print, ret.
  destruct (for_in matches _ _) as [[[]|e] s2]; reflexivity.
Qed.

(** C8, amended: the failure of a transition leaves [main] at once,
    with the exception of the failed call and in the state that call
    left.  The windows matched before the failing one have had their
    transition; no window other than those and the failing one has been
    written to or changed, so none of the remaining windows is
    attempted. *)
Theorem main_failure_aborts_batch args s patterns before h rest s1 s2 e s3 :
  list_comprehension
    (fun pat =>
       of_result
         (re.compile pat (if Args.case_insensitive args then re.I else 0)))
    (Args.patterns args) s = (Ok patterns, s) ->
  get_windows patterns (Args.all_matches args) s
  = (Ok (before ++ h :: rest), s1) ->
  for_in before (fun window => make_fullscreen window)
    (record_call (print_ (before ++ h :: rest)) s1) = (Ok tt, s2) ->
  make_fullscreen h s2 = (Raise e, s3) ->
  main args s = (Raise e, s3) /\
  forall h', ~ In h' (before ++ [h]) ->
    existsb (is_write_to h') (calls_since s s3) = false /\
    find_window h' (toplevel s3) = find_window h' (toplevel s).
Proof.
  intros Hc Hg Hbefore Hh. split.
  - rewrite (main_run args s patterns _ s1 Hc Hg).
    rewrite (for_in_stops _ before h rest _ s2 e s3 Hbefore Hh).
    reflexivity.
  - intros h' Hnot.
    destruct (get_windows_success _ _ _ _ _ Hg) as [_ Hs1].
    destruct (for_in_frame _ _ _ _ Hbefore) as (c2 & Ht2 & _ & Hf2).
    destruct (make_fullscreen_frame _ _ _ _ Hh) as (c3 & Ht3 & _ & Hf3).
    assert (Hne : h' <> h).
    { intros ->. apply Hnot, in_or_app. right. left. reflexivity. }
    assert (Hnb : ~ In h' before).
    { intros Hin. apply Hnot, in_or_app. left. exact Hin. }
    destruct (Hf2 h' Hnb) as [Hc2 Hw2]. destruct (Hf3 h' Hne) as [Hc3 Hw3].
    split.
    + erewrite calls_since_app.
      2:{ rewrite Ht3, Ht2. cbn [trace record_call]. rewrite Hs1.
          cbn [trace after_get_windows]. rewrite <- !app_assoc.
          reflexivity. }
      cbn [app existsb is_write_to orb].
      rewrite existsb_app, visit_no_write.
      cbn [app existsb is_write_to orb].
      rewrite existsb_app, Hc2, Hc3. reflexivity.
    + rewrite Hw3, Hw2, Hs1. reflexivity.
Qed.

End Driver.

(** ** Decorations *)

Lemma update_window_same h w l :
  find_window h l = Some w -> update_window h w l = l.
Proof.
  induction l as [|[k w'] l IH]; simpl; [reflexivity|].
  destruct (Z.eqb_spec h k) as [->|Hne].
  - intros [= ->]. reflexivity.
  - intros H. rewrite (IH H). reflexivity.
Qed.

(** [strip_decorations] removes the menu of a window that has one. *)
Lemma strip_decorations_removes_menu s h w :
  find_window h (toplevel s) = Some w ->
  elevated w = false ->
  exists s',
    strip_decorations h s = (Ok tt, s') /\
    find_window h (toplevel s') = Some (with_menu None w).
Proof.
  intros Hw He. unfold strip_decorations, gui.SetMenu, gui.write_window.
  cbn [toplevel record_call]. rewrite Hw, He.
  eexists. split; [reflexivity|].
  cbn [toplevel set_toplevel record_call]. rewrite find_update_same, Hw.
  reflexivity.
Qed.

(** On a window without a menu it succeeds and changes no window: all it
    leaves is the record of the call. *)
Lemma strip_decorations_no_menu s h w :
  find_window h (toplevel s) = Some w ->
  elevated w = false ->
  menu w = None ->
  strip_decorations h s = (Ok tt, record_call (SetMenu_ h None) s).
Proof.
  intros Hw He Hmenu. unfold strip_decorations, gui.SetMenu, gui.write_window.
  cbn [toplevel record_call]. rewrite Hw, He.
  state_simpl.
  replace (with_menu None w) with w
    by (destruct w; cbn in Hmenu; subst; reflexivity).
  rewrite (update_window_same h w _ Hw). reflexivity.
Qed.

Section Flags.

Context {engine : re.Engine}.

(** [main] never reads [args.remove_decorations]. *)
Lemma main_ignores_remove_decorations patterns all_matches case_insensitive
    monitor s :
  main (Args.mk patterns all_matches case_insensitive monitor true) s
  = main (Args.mk patterns all_matches case_insensitive monitor false) s.
Proof. reflexivity. Qed.

Lemma compile_keeps_state (compile : string -> result re.Pattern) raw :
  forall s,
    snd (list_comprehension (fun pat => of_result (compile pat)) raw s) = s.
Proof.
  induction raw as [|pat raw IH]; intros s; [reflexivity|].
  cbn [list_comprehension]. unfold bind at 1, of_result at 1.
  destruct (compile pat) as [p|e]; [|reflexivity].
  unfold bind. specialize (IH s).
  destruct (list_comprehension _ raw s) as [[ps|e] s']; exact IH.
Qed.

(** Whatever the arguments and the outcome, [main] removes no menu. *)
Lemma main_removes_no_menu args s :
  existsb is_menu_removal (calls_since s (snd (main args s))) = false.
Proof.
  unfold main.
  pose proof (compile_keeps_state
                (fun pat =>
                   re.compile pat
                     (if Args.case_insensitive args then re.I else 0))
                (Args.patterns args) s) as Hstate.
  destruct (list_comprehension _ (Args.patterns args) s)
    as [[patterns|e] s0] eqn:Hc; cbn [snd] in Hstate; subst s0.
  2:{ rewrite (bind_raise _ _ _ _ _ Hc). cbn [snd].
      rewrite (calls_since_app s s []) by (rewrite app_nil_r; reflexivity).
      reflexivity. }
  rewrite (bind_ok _ _ _ _ _ Hc).
  destruct (enum_fault s) as [code|] eqn:Hf.
  { rewrite (bind_raise _ _ _ _ _
               (get_windows_fault patterns (Args.all_matches args) s code Hf)).
    cbn [snd]. erewrite calls_since_app by reflexivity. reflexivity. }
  rewrite (bind_ok _ _ _ _ _
             (get_windows_run patterns (Args.all_matches args) s Hf)).
  unfold bind, print, ret.
  destruct (for_in _ _ _) as [r s2] eqn:Hfor.
  destruct (for_in_frame _ _ _ _ Hfor) as (calls & Htrace & Hmenu & _).
  assert (Hcalls : calls_since s s2
                   = EnumWindows_
                     :: flat_map (visit (toplevel s))
                          (seen patterns (Args.all_matches args) s)
                     ++ print_ (found patterns (Args.all_matches args) s)
                     :: calls).
  { apply calls_since_app. rewrite Htrace.
    cbn [trace record_call after_get_windows].
    rewrite <- !app_assoc. reflexivity. }
  assert (Hgoal : existsb is_menu_removal (calls_since s s2) = false).
  { rewrite Hcalls. cbn [existsb is_menu_removal orb].
    apply existsb_app_false; [apply visit_reads_only; reflexivity|].
    exact Hmenu. }
  destruct r as [[]|e]; exact Hgoal.
Qed.

End Flags.

(** C3, at a matching window with a menu and [remove_decorations] set:
    [main] succeeds, makes no [SetMenu] call, and the window keeps its
    menu, which [strip_decorations] on the same window would remove. *)
Theorem main_keeps_menu :
  exists s' w' s'' w'',
    main (Desk.args false false true) Desk.dual = (Ok 0, s') /\
    In (print_ [102]) (trace s') /\
    existsb is_menu_removal (trace s') = false /\
    find_window 102 (toplevel s') = Some w' /\
    menu w' = Some 77 /\
    strip_decorations 102 Desk.dual = (Ok tt, s'') /\
    find_window 102 (toplevel s'') = Some w'' /\
    menu w'' = None.
Proof.
  do 4 eexists.
  split; [vm_compute; reflexivity|].
  split; [cbn; tauto|].
  split; [reflexivity|]. split; [reflexivity|]. split; [reflexivity|].
  split; [reflexivity|]. split; reflexivity.
Qed.

(** ** The batch *)

(** C8 as stated fails: of three matched windows the second refuses the
    write and [main] ends with the error of its [SetWindowPos]; the
    third, whose transition would succeed, is never attempted and stays
    as it was. *)
Lemma main_stops_at_refused_window :
  exists s' s'',
    main (Desk.args true true false) Desk.guarded
    = (Raise (pywintypes_error con.ERROR_ACCESS_DENIED "SetWindowPos"), s') /\
    In (print_ [200; 201; 202]) (trace s') /\
    existsb (is_style_mutation 200) (trace s') = true /\
    existsb (is_style_mutation 201) (trace s') = true /\
    existsb (is_write_to 202) (trace s') = false /\
    find_window 202 (toplevel s') = Some Desk.game /\
    make_fullscreen 202 Desk.guarded = (Ok tt, s'').
Proof.
  do 2 eexists.
  split; [vm_compute; reflexivity|].
  split; [cbn; tauto|].
  split; [reflexivity|]. split; [reflexivity|]. split; [reflexivity|].
  split; reflexivity.
Qed.

(** ** Case sensitivity *)

(** The list comprehension over [re.compile] compiles the patterns from
    left to right, stops at the first that fails, and touches no state. *)
Lemma compile_all {engine : re.Engine} flags raw : forall s,
  list_comprehension (fun pat => of_result (re.compile pat flags)) raw s
  = (all_ok (map (fun pat => re.compile pat flags) raw), s).
Proof.
  induction raw as [|pat raw IH]; intros s; [reflexivity|].
  cbn [list_comprehension map all_ok]. unfold bind at 1, of_result at 1.
  destruct (re.compile pat flags) as [p|e]; [|reflexivity].
  unfold bind. rewrite (IH s).
  destruct (all_ok _) as [ps|e]; reflexivity.
Qed.

(** The small engine under [re.I]: [k], [s] and [i] are found in the
    Kelvin sign, the long s and the dotted capital I, as Python finds
    them; without [re.I] they are not. *)
Lemma folding_outside_ascii :
  literal.match_anywhere true "k" (literal.utf8 [226; 132; 170]%nat) = true /\
  literal.match_anywhere true "S" (literal.utf8 [197; 191]%nat) = true /\
  literal.match_anywhere true "i" (literal.utf8 [196; 176]%nat) = true /\
  literal.match_anywhere false "k" (literal.utf8 [226; 132; 170]%nat) = false.
Proof. repeat split. Qed.

(** C9: the pattern "Game" compiled under [re.I] is found in "my game
    window", and compiled without it is not; accordingly [main] with
    [case_insensitive] finds and prints the window of that title, and
    without it prints no window.  For every engine and all patterns,
    [main] compiles each pattern under the one flag that
    [args.case_insensitive] gives, [re.I] or 0: it ends with the first
    error of these compilations or, when there is none, searches with
    these compiled patterns and prints what they select. *)
Theorem case_insensitive_flag :
  (exists p,
     re.compile "Game" re.I = Ok p /\ re.search p "my game window" = true) /\
  (exists p,
     re.compile "Game" 0 = Ok p /\ re.search p "my game window" = false) /\
  In (print_ [100])
    (trace (snd (main (Desk.args false true false) Desk.single))) /\
  In (print_ [])
    (trace (snd (main (Desk.args false false false) Desk.single))) /\
  (forall (engine : re.Engine) (args : Args.t) (s : State),
     match
       all_ok
         (map
            (fun pat =>
               re.compile (Engine := engine) pat
                 (if Args.case_insensitive args then re.I else 0))
            (Args.patterns args))
     with
     | Ok patterns =>
         enum_fault s = None ->
         In (print_ (found patterns (Args.all_matches args) s))
           (calls_since s (snd (main args s)))
     | Raise e => main args s = (Raise e, s)
     end).
Proof.
  split; [eexists; split; reflexivity|].
  split; [eexists; split; reflexivity|].
  split; [vm_compute; tauto|]. split; [vm_compute; tauto|].
  intros engine args s.
  pose proof (compile_all (if Args.case_insensitive args then re.I else 0)
                (Args.patterns args) s) as Hc.
  destruct (all_ok _) as [patterns|e].
  - intros Hf.
    rewrite (main_run args s patterns _ _ Hc
               (get_windows_run patterns (Args.all_matches args) s Hf)).
    destruct (for_in _ _ _) as [r s2] eqn:Hfor. cbn [snd].
    destruct (for_in_frame _ _ _ _ Hfor) as (calls & Htrace & _ & _).
    erewrite calls_since_app.
    2:{ rewrite Htrace. cbn [trace record_call after_get_windows].
        rewrite <- !app_assoc. reflexivity. }
    cbn [app]. right. apply in_or_app. right. left. reflexivity.
  - unfold main. exact (bind_raise _ _ _ _ _ Hc).
Qed.

(** ** The theorems at concrete desktops *)

(** The order of the calls, on the one-monitor desktop. *)
Lemma make_fullscreen_order_witness :
  exists w m,
    find_window 100 (toplevel Desk.single) = Some w /\
    nearest_monitor (monitors Desk.single) w = Some m /\
    calls_since Desk.single (snd (make_fullscreen 100 Desk.single))
    = transition_calls 100 m /\
    precedes (is_style_mutation 100) (is_monitor_resolution 100)
      (calls_since Desk.single (snd (make_fullscreen 100 Desk.single))) = true /\
    precedes (is_monitor_resolution 100) (is_geometry_mutation 100)
      (calls_since Desk.single (snd (make_fullscreen 100 Desk.single))) = true.
Proof.
  exact (make_fullscreen_order Desk.single 100
           (snd (make_fullscreen 100 Desk.single)) eq_refl).
Defined.

(** The style overwrite, on the window of the two-monitor desktop. *)
Lemma make_fullscreen_style_witness :
  exists w',
    find_window 102 (toplevel (snd (make_fullscreen 102 Desk.dual))) = Some w' /\
    style w' = Z.lor (Z.lor con.WS_VISIBLE con.WS_POPUP) con.WS_CLIPCHILDREN /\
    In (SetWindowLong_ 102 con.GWL_STYLE
          (Z.lor (Z.lor con.WS_VISIBLE con.WS_POPUP) con.WS_CLIPCHILDREN))
      (calls_since Desk.dual (snd (make_fullscreen 102 Desk.dual))).
Proof.
  exact (make_fullscreen_style Desk.dual 102 Desk.editor eq_refl eq_refl).
Defined.

(** The handles of the two-monitor desktop are distinct. *)
Lemma dual_handles_distinct : NoDup (map fst (toplevel Desk.dual)).
Proof.
  cbn. repeat constructor; cbn; intuition discriminate.
Defined.

(** All matches of "Game", letter case counting, on the two-monitor
    desktop. *)
Lemma get_windows_all_matches_witness :
  exists result s',
    get_windows (Desk.game_pattern 0) true Desk.dual = (Ok result, s') /\
    (forall h,
       In h result <->
       exists w,
         In (h, w) (toplevel Desk.dual) /\ window_visible w = true /\
         exists pattern,
           In pattern (Desk.game_pattern 0) /\
           re.search pattern (title w) = true) /\
    NoDup result /\
    (Desk.game_pattern 0 = [] -> result = []) /\
    toplevel s' = toplevel Desk.dual.
Proof.
  exact (get_windows_all_matches (Desk.game_pattern 0) Desk.dual eq_refl
           dual_handles_distinct).
Defined.

(** The first match of "Game", letter case counting, on the two-monitor
    desktop: the second window of three; the third is not looked at. *)
Lemma get_windows_first_match_witness :
  exists result s' every s'',
    get_windows (Desk.game_pattern 0) false Desk.dual = (Ok result, s') /\
    get_windows (Desk.game_pattern 0) true Desk.dual = (Ok every, s'') /\
    every = filter (selected (Desk.game_pattern 0) (toplevel Desk.dual))
              (map fst (toplevel Desk.dual)) /\
    (List.length result <= 1)%nat /\
    result = firstn 1 every /\
    (forall h, In h result -> In h every) /\
    (forall h, In h result ->
       selected (Desk.game_pattern 0) (toplevel Desk.dual) h = true) /\
    (result = [] <->
     forall h, In h (map fst (toplevel Desk.dual)) ->
       selected (Desk.game_pattern 0) (toplevel Desk.dual) h = false) /\
    exists unvisited,
      map fst (toplevel Desk.dual)
      = visited (calls_since Desk.dual s') ++ unvisited /\
      (result = [] -> unvisited = []) /\
      (forall h, result = [h] ->
         exists before,
           visited (calls_since Desk.dual s') = before ++ [h] /\
           forall x, In x before ->
             selected (Desk.game_pattern 0) (toplevel Desk.dual) x = false).
Proof.
  exact (get_windows_first_match (Desk.game_pattern 0) Desk.dual eq_refl).
Defined.

(** The first-match enumeration among three matching windows returns,
    and its callback raises [StopIteration]. *)
Lemma get_windows_returns_witness :
  (exists result s',
     get_windows (Desk.game_pattern re.I) false Desk.guarded = (Ok result, s')) /\
  fst (gui.EnumWindows (_callback (Desk.game_pattern re.I) false) tt Desk.guarded)
  = Raise StopIteration.
Proof.
  split.
  - exact (proj1 get_windows_returns (Desk.game_pattern re.I) false Desk.guarded
             eq_refl).
  - exact (proj2 (proj2 get_windows_returns) (Desk.game_pattern re.I) Desk.guarded
             eq_refl eq_refl).
Defined.

(** With letter case ignored, [main] finds and prints all three windows. *)
Lemma case_insensitive_flag_witness :
  In (print_ [200; 201; 202])
    (calls_since Desk.guarded
       (snd (main (Desk.args true true false) Desk.guarded))).
Proof.
  exact (proj2 (proj2 (proj2 (proj2 case_insensitive_flag))) literal.engine
           (Desk.args true true false) Desk.guarded eq_refl).
Defined.

(** The batch of three windows, the second refusing the write. *)
Lemma main_failure_aborts_batch_witness :
  let s1 := snd (get_windows (Desk.game_pattern re.I) true Desk.guarded) in
  let s2 :=
    snd (for_in [200] (fun window => make_fullscreen window)
           (record_call (print_ [200; 201; 202]) s1)) in
  let s3 := snd (make_fullscreen 201 s2) in
  main (Desk.args true true false) Desk.guarded
  = (Raise (pywintypes_error con.ERROR_ACCESS_DENIED "SetWindowPos"), s3) /\
  forall h', ~ In h' ([200] ++ [201]) ->
    existsb (is_write_to h') (calls_since Desk.guarded s3) = false /\
    find_window h' (toplevel s3) = find_window h' (toplevel Desk.guarded).
Proof.
  intros s1 s2 s3.
  exact (main_failure_aborts_batch (Desk.args true true false) Desk.guarded
           (Desk.game_pattern re.I) [200] 201 [202] s1 s2
           (pywintypes_error con.ERROR_ACCESS_DENIED "SetWindowPos") s3
           eq_refl eq_refl eq_refl eq_refl).
Defined.

(** * Further properties *)

(** ** Of the enumeration *)

Lemma upto_first_ext (f g : HWND -> bool) hs :
  (forall h, f h = g h) -> upto_first f hs = upto_first g hs.
Proof.
  intros Hfg. induction hs as [|h hs IH]; [reflexivity|].
  cbn [upto_first]. rewrite Hfg, IH. reflexivity.
Qed.

Lemma upto_first_incl f hs h : In h (upto_first f hs) -> In h hs.
Proof.
  induction hs as [|a hs IH]; [intros []|].
  cbn [upto_first]. destruct (f a).
  - intros [<-|[]]. left. reflexivity.
  - intros [<-|Hin]; [left; reflexivity|right; exact (IH Hin)].
Qed.

Lemma title_read_visible tl h hs :
  In (GetWindowText_ h) (flat_map (visit tl) hs) ->
  exists w, find_window h tl = Some w /\ window_visible w = true.
Proof.
  intros Hin. apply in_flat_map in Hin as (x & _ & Hx).
  unfold visit in Hx. destruct (find_window x tl) as [w|] eqn:Hw.
  - destruct (window_visible w) eqn:Hv.
    + destruct Hx as [Hx|[Hx|[]]]; [discriminate|].
      injection Hx as ->. exists w. split; assumption.
    + destruct Hx as [Hx|[]]. discriminate.
  - destruct Hx as [Hx|[]]. discriminate.
Qed.

Section MoreDiscovery.

Context {engine : re.Engine}.

(** What a run of [get_windows] leaves, whatever the outcome. *)
Lemma get_windows_state patterns all_matches s :
  let s' := snd (get_windows patterns all_matches s) in
  toplevel s' = toplevel s /\ monitors s' = monitors s /\
  enum_fault s' = enum_fault s /\
  exists seen_handles,
    calls_since s s' = EnumWindows_ :: flat_map (visit (toplevel s)) seen_handles /\
    incl seen_handles (map fst (toplevel s)).
Proof.
  cbv zeta. destruct (enum_fault s) as [code|] eqn:Hf.
  - rewrite (get_windows_fault patterns all_matches s code Hf). cbn [snd].
    split; [reflexivity|]. split; [reflexivity|].
    split; [cbn [enum_fault]; rewrite Hf; reflexivity|].
    exists []. split; [|intros x []].
    apply calls_since_app. reflexivity.
  - rewrite (get_windows_run patterns all_matches s Hf). cbn [snd].
    split; [reflexivity|]. split; [reflexivity|].
    split; [cbn [enum_fault after_get_windows]; rewrite Hf; reflexivity|].
    exists (seen patterns all_matches s). split.
    + apply calls_since_app. reflexivity.
    + unfold seen. destruct all_matches; [apply incl_refl|].
      intros x. apply upto_first_incl.
Qed.

(** X1: [get_windows] only looks: whatever the patterns, the policy and
    the outcome, it leaves every window and monitor as it was and makes no
    call that writes to a window. *)
Theorem get_windows_read_only patterns all_matches s :
  let s' := snd (get_windows patterns all_matches s) in
  toplevel s' = toplevel s /\ monitors s' = monitors s /\
  existsb is_write (calls_since s s') = false.
Proof.
  destruct (get_windows_state patterns all_matches s)
    as (Htl & Hms & _ & hs & Hcalls & _).
  cbv zeta. split; [exact Htl|]. split; [exact Hms|].
  rewrite Hcalls. cbn [existsb is_write orb].
  apply visit_reads_only; reflexivity.
Qed.

(** X2: under the all-matches policy the result lists the selected
    windows in the order of the enumeration, each as often as the
    enumeration yields it. *)
Theorem get_windows_in_enumeration_order patterns s :
  enum_fault s = None ->
  fst (get_windows patterns true s)
  = Ok (filter (selected patterns (toplevel s)) (map fst (toplevel s))).
Proof.
  intros Hf. rewrite (get_windows_run patterns true s Hf). reflexivity.
Qed.

(** X3: the list [windows] is made anew by each call: a second call of
    [get_windows] right after the first returns the same handles, not the
    handles twice. *)
Theorem get_windows_again patterns all_matches s :
  enum_fault s = None ->
  fst (get_windows patterns all_matches
         (snd (get_windows patterns all_matches s)))
  = fst (get_windows patterns all_matches s).
Proof.
  intros Hf. rewrite (get_windows_run patterns all_matches s Hf). cbn [snd fst].
  rewrite get_windows_run by exact Hf. reflexivity.
Qed.

(** X4: the callback reads the title of visible windows only: every
    [GetWindowText] call of [get_windows] is on a window that is
    visible. *)
Theorem get_windows_reads_visible_titles patterns all_matches s h :
  In (GetWindowText_ h)
    (calls_since s (snd (get_windows patterns all_matches s))) ->
  exists w, find_window h (toplevel s) = Some w /\ window_visible w = true.
Proof.
  destruct (get_windows_state patterns all_matches s)
    as (_ & _ & _ & hs & Hcalls & _).
  rewrite Hcalls. intros [Hin|Hin]; [discriminate|].
  exact (title_read_visible _ _ _ Hin).
Qed.

Lemma selected_permutation patterns patterns' tl h :
  Permutation patterns patterns' ->
  selected patterns tl h = selected patterns' tl h.
Proof.
  intros Hperm. unfold selected, title_matches.
  destruct (find_window h tl) as [w|]; [|reflexivity]. f_equal.
  apply eq_true_iff_eq. rewrite !existsb_exists.
  split; intros (p & Hin & Hp); exists p; split; try exact Hp.
  - exact (Permutation_in _ Hperm Hin).
  - exact (Permutation_in _ (Permutation_sym Hperm) Hin).
Qed.

(** X5: the order of the patterns means nothing: [get_windows] with the
    same patterns in another order returns the same handles and leaves the
    same state, under either policy. *)
Theorem get_windows_pattern_order patterns patterns' all_matches s :
  Permutation patterns patterns' ->
  get_windows patterns all_matches s = get_windows patterns' all_matches s.
Proof.
  intros Hperm.
  pose proof (fun h => selected_permutation _ _ (toplevel s) h Hperm) as Hsel.
  destruct (enum_fault s) as [code|] eqn:Hf.
  - rewrite !(get_windows_fault _ all_matches s code Hf). reflexivity.
  - rewrite !(get_windows_run _ all_matches s Hf).
    assert (Hfound : found patterns all_matches s = found patterns' all_matches s).
    { unfold found. rewrite (filter_ext _ _ Hsel). reflexivity. }
    assert (Hseen : seen patterns all_matches s = seen patterns' all_matches s).
    { unfold seen. rewrite (upto_first_ext _ _ _ Hsel). reflexivity. }
    rewrite Hfound, Hseen. reflexivity.
Qed.

End MoreDiscovery.

(** ** Of the monitor lookup *)

Lemma best_monitor_some score ms :
  ms <> [] -> exists m, best_monitor score ms = Some m.
Proof.
  destruct ms as [|m ms]; [congruence|]. intros _. cbn [best_monitor].
  destruct (best_monitor score ms) as [m'|]; [|eauto].
  destruct (score m' >? score m); eauto.
Qed.

Lemma best_monitor_In score ms m :
  best_monitor score ms = Some m -> In m ms.
Proof.
  revert m. induction ms as [|a ms IH]; intros m; [discriminate|].
  cbn [best_monitor]. destruct (best_monitor score ms) as [m'|].
  - destruct (score m' >? score a); intros [= <-].
    + right. apply IH. reflexivity.
    + left. reflexivity.
  - intros [= <-]. left. reflexivity.
Qed.

Lemma find_monitor_In h ms m : find_monitor h ms = Some m -> In m ms.
Proof.
  induction ms as [|a ms IH]; [discriminate|]. cbn [find_monitor].
  destruct (h =? hmonitor a).
  - intros [= <-]. left. reflexivity.
  - intros H. right. exact (IH H).
Qed.

Lemma find_monitor_listed ms m :
  In m ms -> exists m', find_monitor (hmonitor m) ms = Some m'.
Proof.
  induction ms as [|a ms IH]; [intros []|]. cbn [find_monitor].
  intros [->|Hin].
  - rewrite Z.eqb_refl. eauto.
  - destruct (hmonitor m =? hmonitor a); [eauto|exact (IH Hin)].
Qed.

(** Under [MONITOR_DEFAULTTONEAREST] a rectangle has a monitor as soon as
    there is one. *)
Lemma nearest_monitor_some ms w :
  ms <> [] -> exists m, nearest_monitor ms w = Some m /\ In m ms.
Proof.
  intros Hms. unfold nearest_monitor, monitor_from_rect.
  destruct (best_monitor_some (fun m => intersection_area (rect w) (bounds m))
              ms Hms) as (m1 & H1).
  destruct (best_monitor_some (fun m => - rect_distance (rect w) (bounds m))
              ms Hms) as (m2 & H2).
  rewrite H1, H2, Z.eqb_refl.
  assert (Hany : forall m, In m ms ->
            exists m', find_monitor (hmonitor m) ms = Some m' /\ In m' ms).
  { intros m Hin. destruct (find_monitor_listed ms m Hin) as (m' & Hm').
    exists m'. split; [exact Hm'|exact (find_monitor_In _ _ _ Hm')]. }
  destruct (intersection_area (rect w) (bounds m1) >? 0).
  - exact (Hany m1 (best_monitor_In _ _ _ H1)).
  - exact (Hany m2 (best_monitor_In _ _ _ H2)).
Qed.

(** X6: [get_monitor] asks for the nearest monitor, so for a window that
    exists it succeeds as soon as the desktop has a monitor; what it
    returns is the rectangle of one of the monitors, and it changes no
    window and no monitor. *)
Theorem get_monitor_succeeds s h w :
  find_window h (toplevel s) = Some w ->
  monitors s <> [] ->
  exists info s' m,
    get_monitor h s = (Ok info, s') /\
    In m (monitors s) /\
    Monitor_ info = tuple_of_rect (bounds m) /\
    toplevel s' = toplevel s /\ monitors s' = monitors s.
Proof.
  intros Hw Hms.
  destruct (nearest_monitor_some (monitors s) w Hms) as (m & Hm & Hin).
  rewrite get_monitor_run. unfold monitor_handle_of. rewrite Hw.
  erewrite GetMonitorInfo_ok by exact Hm.
  do 3 eexists. split; [reflexivity|]. split; [exact Hin|].
  repeat split.
Qed.

(** ** Of the transition *)

(** X7: the transition of a handle that is no window, or of a window
    that may not be written to, never succeeds and changes nothing.
    [SetWindowLong] reports no failure, so the transition goes on and
    ends with the error of [SetWindowPos], or before that with the error
    of [GetMonitorInfo] when no monitor is found; every window and
    monitor is left as it was. *)
Theorem make_fullscreen_refused_changes_nothing s h :
  writable (toplevel s) h = false ->
  exists code funcname s',
    make_fullscreen h s = (Raise (pywintypes_error code funcname), s') /\
    (funcname = "SetWindowPos"%string \/ funcname = "GetMonitorInfo"%string) /\
    toplevel s' = toplevel s /\ monitors s' = monitors s /\
    In (SetWindowLong_ h con.GWL_STYLE BORDERLESS_STYLE) (calls_since s s').
Proof.
  intros Hno. rewrite (make_fullscreen_unwritable s h Hno).
  unfold refused_transition.
  destruct (find_monitor _ _) as [m|]; cbn [fst snd];
    do 3 eexists; (split; [reflexivity|]).
  - split; [left; reflexivity|]. split; [reflexivity|]. split; [reflexivity|].
    erewrite calls_since_app by reflexivity. left. reflexivity.
  - split; [right; reflexivity|]. split; [reflexivity|]. split; [reflexivity|].
    erewrite calls_since_app by reflexivity. left. reflexivity.
Qed.

(** X8: nothing is rolled back.  On a desktop without any monitor the
    transition of a writable window fails at [GetMonitorInfo], after the
    style is overwritten and before the geometry is set: the window is
    left with the borderless style and its old rectangle, title and
    menu. *)
Theorem make_fullscreen_no_rollback s h w :
  find_window h (toplevel s) = Some w ->
  elevated w = false ->
  monitors s = [] ->
  exists s',
    make_fullscreen h s
    = (Raise (pywintypes_error con.ERROR_INVALID_MONITOR_HANDLE
                "GetMonitorInfo"), s') /\
    find_window h (toplevel s')
    = Some (mkWindow (title w) BORDERLESS_STYLE (rect w) (menu w) false) /\
    existsb (is_geometry_mutation h) (calls_since s s') = false.
Proof.
  intros Hw He Hms.
  assert (Hm : nearest_monitor (monitors s) w = None).
  { rewrite Hms. reflexivity. }
  rewrite (make_fullscreen_no_monitor s h w Hw He Hm).
  eexists. split; [reflexivity|]. split.
  - cbn [toplevel]. rewrite find_update_same, Hw.
    unfold with_style. rewrite He. reflexivity.
  - erewrite calls_since_app by reflexivity. reflexivity.
Qed.

(** X9: the transition of a writable window succeeds as soon as the
    desktop has a monitor. *)
Theorem make_fullscreen_succeeds s h :
  writable (toplevel s) h = true ->
  monitors s <> [] ->
  exists s', make_fullscreen h s = (Ok tt, s').
Proof.
  unfold writable. intros Hok Hms.
  destruct (find_window h (toplevel s)) as [w|] eqn:Hw; [|discriminate].
  apply negb_true_iff in Hok.
  destruct (nearest_monitor_some (monitors s) w Hms) as (m & Hm & _).
  eexists. exact (make_fullscreen_ok s h w m Hw Hok Hm).
Qed.

(** X10: a transition is about its own window: whatever its outcome, it
    leaves every other window as it was, writes to no other window, and
    leaves the monitors as they were. *)
Theorem make_fullscreen_other_windows s h h' :
  h' <> h ->
  let s' := snd (make_fullscreen h s) in
  find_window h' (toplevel s') = find_window h' (toplevel s) /\
  existsb (is_write_to h') (calls_since s s') = false /\
  monitors s' = monitors s.
Proof.
  intros Hne s'.
  destruct (make_fullscreen h s) as [r s1] eqn:Hrun. cbn [snd] in s'.
  subst s'.
  destruct (make_fullscreen_frame _ _ _ _ Hrun) as (calls & Ht & _ & Hframe).
  destruct (Hframe h' Hne) as [Hwrite Hfind].
  split; [exact Hfind|]. split.
  - rewrite (calls_since_app _ _ _ Ht). exact Hwrite.
  - destruct (writable (toplevel s) h) eqn:Hok.
    2:{ rewrite (make_fullscreen_unwritable s h Hok) in Hrun.
        injection Hrun as _ <-. reflexivity. }
    destruct (writable_window _ _ Hok) as (w & Hw & He).
    destruct (nearest_monitor (monitors s) w) as [m|] eqn:Hm.
    + rewrite (make_fullscreen_ok s h w m Hw He Hm) in Hrun.
      injection Hrun as _ <-. reflexivity.
    + rewrite (make_fullscreen_no_monitor s h w Hw He Hm) in Hrun.
      injection Hrun as _ <-. reflexivity.
Qed.

Lemma remove_window_permutation h w l :
  find_window h l = Some w ->
  Permutation (map fst l) (h :: map fst (remove_window h l)).
Proof.
  induction l as [|[k w'] l IH]; [discriminate|].
  cbn [find_window remove_window map fst].
  destruct (Z.eqb_spec h k) as [->|Hne].
  - intros _. apply Permutation_refl.
  - intros Hw. cbn [map fst].
    eapply perm_trans; [apply perm_skip, IH, Hw|apply perm_swap].
Qed.

(** X11: a successful transition changes the style and the rectangle of
    its window and nothing else of it: title, menu and ownership stay.
    The window is visible afterwards, and the desktop has the same
    windows as before. *)
Theorem make_fullscreen_keeps_window s h s' :
  make_fullscreen h s = (Ok tt, s') ->
  exists w w',
    find_window h (toplevel s) = Some w /\
    find_window h (toplevel s') = Some w' /\
    title w' = title w /\ menu w' = menu w /\ elevated w' = elevated w /\
    window_visible w' = true /\
    Permutation (map fst (toplevel s)) (map fst (toplevel s')).
Proof.
  intros Hrun.
  destruct (make_fullscreen_success s h s' Hrun) as (w & m & Hw & _ & _ & ->).
  exists w, (fullscreen_on m w).
  split; [exact Hw|]. split; [apply find_after_fullscreen|].
  repeat (split; [reflexivity|]).
  exact (remove_window_permutation h w (toplevel s) Hw).
Qed.

(** X12: with a single monitor a transition is idempotent: after a
    successful transition a second one succeeds too and leaves every
    window, in the same order, and the monitor as the first left them. *)
Theorem make_fullscreen_idempotent_one_monitor s h s1 m :
  monitors s = [m] ->
  make_fullscreen h s = (Ok tt, s1) ->
  exists s2,
    make_fullscreen h s1 = (Ok tt, s2) /\
    toplevel s2 = toplevel s1 /\ monitors s2 = monitors s1.
Proof.
  intros Hms H1.
  destruct (make_fullscreen_success _ _ _ H1) as (w & m1 & Hw & He & Hm1 & Hs1).
  assert (Hms1 : monitors s1 = [m]) by (rewrite Hs1; exact Hms).
  destruct (nearest_monitor_some (monitors s1) (fullscreen_on m1 w))
    as (m2 & Hm2 & _); [rewrite Hms1; discriminate|].
  assert (H2 : make_fullscreen h s1
               = (Ok tt, after_fullscreen h (fullscreen_on m1 w) m2 s1)).
  { apply make_fullscreen_ok; [|exact He|exact Hm2].
    rewrite Hs1. apply find_after_fullscreen. }
  eexists. split; [exact H2|]. split; [|reflexivity].
  exact (make_fullscreen_twice_one_monitor s h s1 _ m Hms H1 H2).
Qed.

(** X13: on a monitor whose own origin is the origin of the screen a
    successful transition leaves the window exactly on the monitor's
    rectangle. *)
Theorem make_fullscreen_at_origin s h w m s' r b :
  find_window h (toplevel s) = Some w ->
  nearest_monitor (monitors s) w = Some m ->
  bounds m = (0, 0, r, b) ->
  make_fullscreen h s = (Ok tt, s') ->
  exists w', find_window h (toplevel s') = Some w' /\ rect w' = bounds m.
Proof.
  intros Hw Hm Hb Hrun.
  destruct (make_fullscreen_success _ _ _ Hrun) as (w0 & m0 & Hw0 & _ & Hm0 & ->).
  rewrite Hw in Hw0. injection Hw0 as <-.
  rewrite Hm in Hm0. injection Hm0 as <-.
  exists (fullscreen_on m w). split; [apply find_after_fullscreen|].
  cbn [rect fullscreen_on]. rewrite Hb. reflexivity.
Qed.

(** ** Of decoration stripping *)

Lemma update_window_handles h w l :
  map fst (update_window h w l) = map fst l.
Proof.
  induction l as [|[k w'] l IH]; [reflexivity|]. cbn [update_window].
  destruct (Z.eqb_spec h k) as [->|Hne]; cbn [map fst]; [reflexivity|].
  rewrite IH. reflexivity.
Qed.

(** X14: [strip_decorations] on a writable window removes its menu and
    changes nothing else: the rest of the window, the other windows, the
    order of the windows and the monitors stay; its one call is
    [SetMenu] with no menu. *)
Theorem strip_decorations_only_menu s h w :
  find_window h (toplevel s) = Some w ->
  elevated w = false ->
  exists s',
    strip_decorations h s = (Ok tt, s') /\
    find_window h (toplevel s')
    = Some (mkWindow (title w) (style w) (rect w) None (elevated w)) /\
    (forall h', h' <> h ->
       find_window h' (toplevel s') = find_window h' (toplevel s)) /\
    map fst (toplevel s') = map fst (toplevel s) /\
    monitors s' = monitors s /\
    calls_since s s' = [SetMenu_ h None].
Proof.
  intros Hw He. unfold strip_decorations, gui.SetMenu, gui.write_window.
  cbn [toplevel record_call]. rewrite Hw, He.
  eexists. split; [reflexivity|].
  cbn [toplevel set_toplevel record_call monitors].
  split; [rewrite find_update_same, Hw; unfold with_menu; rewrite He;
          reflexivity|].
  split; [intros h' Hne; apply find_update_other; exact Hne|].
  split; [apply update_window_handles|]. split; [reflexivity|].
  apply calls_since_app. reflexivity.
Qed.

(** X15: [strip_decorations] is idempotent: after it has succeeded, a
    second call succeeds too and leaves every window as it is. *)
Theorem strip_decorations_twice s h s1 :
  strip_decorations h s = (Ok tt, s1) ->
  exists s2,
    strip_decorations h s1 = (Ok tt, s2) /\ toplevel s2 = toplevel s1.
Proof.
  intros H1.
  assert (Hcase : exists w,
            find_window h (toplevel s) = Some w /\ elevated w = false).
  { revert H1. unfold strip_decorations, gui.SetMenu, gui.write_window.
    cbn [toplevel record_call].
    destruct (find_window h (toplevel s)) as [w|]; [|discriminate].
    destruct (elevated w) eqn:He; [discriminate|]. eauto. }
  destruct Hcase as (w & Hw & He).
  destruct (strip_decorations_removes_menu s h w Hw He) as (s1' & H1' & Hw1).
  rewrite H1 in H1'. injection H1' as <-.
  eexists. split.
  - apply (strip_decorations_no_menu s1 h (with_menu None w) Hw1);
      [exact He|reflexivity].
  - reflexivity.
Qed.

(** X16: [strip_decorations] on a handle that is no window, or on a
    window that may not be written to, raises the error of [SetMenu]
    and changes nothing. *)
Theorem strip_decorations_refused s h :
  writable (toplevel s) h = false ->
  exists code,
    strip_decorations h s
    = (Raise (pywintypes_error code "SetMenu"),
       record_call (SetMenu_ h None) s) /\
    (code = con.ERROR_INVALID_WINDOW_HANDLE \/ code = con.ERROR_ACCESS_DENIED).
Proof.
  unfold writable, strip_decorations, gui.SetMenu, gui.write_window.
  cbn [toplevel record_call]. intros Hno.
  destruct (find_window h (toplevel s)) as [w|].
  - destruct (elevated w); [|discriminate].
    exists con.ERROR_ACCESS_DENIED. auto.
  - exists con.ERROR_INVALID_WINDOW_HANDLE. auto.
Qed.

(** ** Of the driver *)

Lemma make_fullscreen_calls_kind s h r s' :
  make_fullscreen h s = (r, s') ->
  forallb is_transition_call (calls_since s s') = true.
Proof.
  intros Hrun.
  destruct (writable (toplevel s) h) eqn:Hok.
  2:{ rewrite (make_fullscreen_unwritable s h Hok) in Hrun.
      injection Hrun as _ <-. erewrite calls_since_app by reflexivity.
      unfold refused_transition. destruct (find_monitor _ _); reflexivity. }
  destruct (writable_window _ _ Hok) as (w & Hw & He).
  destruct (nearest_monitor (monitors s) w) as [m|] eqn:Hm.
  - rewrite (make_fullscreen_ok s h w m Hw He Hm) in Hrun.
    injection Hrun as _ <-. erewrite calls_since_app by reflexivity.
    reflexivity.
  - rewrite (make_fullscreen_no_monitor s h w Hw He Hm) in Hrun.
    injection Hrun as _ <-. erewrite calls_since_app by reflexivity.
    reflexivity.
Qed.

Lemma for_in_calls_kind hs : forall s r s',
  for_in hs (fun window => make_fullscreen window) s = (r, s') ->
  forallb is_transition_call (calls_since s s') = true.
Proof.
  induction hs as [|h hs IH]; intros s r s' Hrun.
  - cbn in Hrun. injection Hrun as _ <-.
    rewrite (calls_since_app s s []) by (rewrite app_nil_r; reflexivity).
    reflexivity.
  - cbn [for_in] in Hrun. unfold bind in Hrun.
    destruct (make_fullscreen h s) as [r1 s1] eqn:H1.
    pose proof (make_fullscreen_calls_kind _ _ _ _ H1) as Hk1.
    destruct (make_fullscreen_frame _ _ _ _ H1) as (c1 & Ht1 & _).
    rewrite (calls_since_app _ _ _ Ht1) in Hk1.
    destruct r1 as [[]|e].
    + pose proof (IH _ _ _ Hrun) as Hk2.
      destruct (for_in_frame _ _ _ _ Hrun) as (c2 & Ht2 & _).
      rewrite (calls_since_app _ _ _ Ht2) in Hk2.
      rewrite (calls_since_app s s' (c1 ++ c2))
        by (rewrite Ht2, Ht1, app_assoc; reflexivity).
      rewrite forallb_app, Hk1, Hk2. reflexivity.
    + injection Hrun as _ <-. rewrite (calls_since_app _ _ _ Ht1). exact Hk1.
Qed.

(** A batch of writable windows on a desktop with a monitor goes
    through, and leaves each of its windows borderless. *)
Lemma for_in_succeeds hs : forall s,
  monitors s <> [] ->
  (forall h, In h hs -> writable (toplevel s) h = true) ->
  exists s',
    for_in hs (fun window => make_fullscreen window) s = (Ok tt, s') /\
    monitors s' = monitors s /\
    (forall h, In h hs ->
       exists w' m,
         find_window h (toplevel s') = Some w' /\
         style w' = BORDERLESS_STYLE /\
         In m (monitors s) /\ rect w' = origin_to (bounds m)) /\
    (forall h', ~ In h' hs ->
       find_window h' (toplevel s') = find_window h' (toplevel s)).
Proof.
  induction hs as [|h hs IH]; intros s Hms Hall.
  - exists s. split; [reflexivity|]. split; [reflexivity|].
    split; [intros h []|reflexivity].
  - assert (Hh : writable (toplevel s) h = true) by (apply Hall; left; reflexivity).
    unfold writable in Hh.
    destruct (find_window h (toplevel s)) as [w|] eqn:Hw; [|discriminate].
    apply negb_true_iff in Hh.
    destruct (nearest_monitor_some (monitors s) w Hms) as (m & Hm & Hin).
    pose proof (make_fullscreen_ok s h w m Hw Hh Hm) as H1.
    set (s1 := after_fullscreen h w m s) in *.
    assert (Hall1 : forall x, In x hs -> writable (toplevel s1) x = true).
    { intros x Hx. unfold writable. destruct (Z.eq_dec x h) as [->|Hne].
      - unfold s1. rewrite find_after_fullscreen. cbn [elevated fullscreen_on].
        rewrite Hh. reflexivity.
      - unfold s1. rewrite find_after_fullscreen_other by exact Hne.
        apply (Hall x). right. exact Hx. }
    destruct (IH s1 Hms Hall1) as (s' & Hrun & Hms' & Hdone & Hframe).
    exists s'. split.
    { cbn [for_in]. rewrite (bind_ok _ _ _ _ _ H1). exact Hrun. }
    split; [exact Hms'|]. split.
    + intros x [<-|Hx]; [|exact (Hdone x Hx)].
      destruct (in_dec Z.eq_dec h hs) as [Hin'|Hnot]; [exact (Hdone h Hin')|].
      exists (fullscreen_on m w), m.
      rewrite (Hframe h Hnot). unfold s1. rewrite find_after_fullscreen.
      repeat split. exact Hin.
    + intros h' Hnot.
      assert (Hne : h' <> h) by (intros ->; apply Hnot; left; reflexivity).
      rewrite Hframe by (intros Hx; apply Hnot; right; exact Hx).
      unfold s1. apply find_after_fullscreen_other. exact Hne.
Qed.

Lemma found_selected {engine : re.Engine} patterns all_matches s h :
  In h (found patterns all_matches s) ->
  selected patterns (toplevel s) h = true.
Proof.
  unfold found. intros Hin.
  assert (Hin' : In h (filter (selected patterns (toplevel s))
                         (map fst (toplevel s)))).
  { destruct all_matches; [exact Hin|exact (firstn_1_In _ _ Hin)]. }
  apply filter_In in Hin'. exact (proj2 Hin').
Qed.

Section MoreDriver.

Context {engine : re.Engine}.

Variable args : Args.t.
Variable s : State.
Variable patterns : list re.Pattern.

Hypothesis compiled :
  list_comprehension
    (fun pat =>
       of_result
         (re.compile pat (if Args.case_insensitive args then re.I else 0)))
    (Args.patterns args) s = (Ok patterns, s).

Let matches := found patterns (Args.all_matches args) s.
Let looked := seen patterns (Args.all_matches args) s.
Let printed := record_call (print_ matches) (after_get_windows matches looked s).

(** [main] on a desktop whose enumeration works: what the transitions
    are run on, and what [main] makes of their outcome. *)
Lemma main_anatomy :
  enum_fault s = None ->
  exists r s2,
    for_in matches (fun window => make_fullscreen window) printed = (r, s2) /\
    main args s = (match r with Ok _ => Ok 0 | Raise e => Raise e end, s2) /\
    calls_since s s2
    = EnumWindows_ :: flat_map (visit (toplevel s)) looked
      ++ print_ matches :: calls_since printed s2.
Proof.
  intros Hf.
  destruct (for_in matches (fun window => make_fullscreen window) printed)
    as [r s2] eqn:Hfor.
  exists r, s2. split; [reflexivity|]. split.
  - rewrite (main_run args s patterns matches
               (after_get_windows matches looked s) compiled
               (get_windows_run patterns (Args.all_matches args) s Hf)).
    fold printed. rewrite Hfor. reflexivity.
  - destruct (for_in_frame _ _ _ _ Hfor) as (calls & Ht & _).
    rewrite (calls_since_app _ _ _ Ht).
    apply calls_since_app. rewrite Ht. unfold printed.
    cbn [trace record_call after_get_windows].
    rewrite <- !app_assoc. reflexivity.
Qed.

(** A window that is not among the matches is not written to and does
    not change, whatever the outcome of [main]. *)
Lemma main_frame h' :
  enum_fault s = None ->
  ~ In h' matches ->
  existsb (is_write_to h') (calls_since s (snd (main args s))) = false /\
  find_window h' (toplevel (snd (main args s))) = find_window h' (toplevel s).
Proof.
  intros Hf Hnot.
  destruct (main_anatomy Hf) as (r & s2 & Hfor & Hmain & Hcalls).
  rewrite Hmain. cbn [snd].
  destruct (for_in_frame _ _ _ _ Hfor) as (calls & Ht & _ & Hframe).
  destruct (Hframe h' Hnot) as [Hw Hfind].
  split.
  - rewrite Hcalls, (calls_since_app _ _ _ Ht).
    cbn [existsb is_write_to orb].
    rewrite existsb_app, visit_no_write. cbn [existsb is_write_to orb].
    exact Hw.
  - rewrite Hfind. reflexivity.
Qed.

End MoreDriver.

Section DriverProperties.

Context {engine : re.Engine}.

Variable args : Args.t.
Variable s : State.
Variable patterns : list re.Pattern.

Hypothesis compiled :
  list_comprehension
    (fun pat =>
       of_result
         (re.compile pat (if Args.case_insensitive args then re.I else 0)))
    (Args.patterns args) s = (Ok patterns, s).

(** X17: [main] writes to matched windows only: a window that
    [get_windows] did not return is not written to and is after [main] as
    it was before, whether [main] ends well or by an error. *)
Theorem main_touches_matches_only h' :
  enum_fault s = None ->
  ~ In h' (found patterns (Args.all_matches args) s) ->
  existsb (is_write_to h') (calls_since s (snd (main args s))) = false /\
  find_window h' (toplevel (snd (main args s))) = find_window h' (toplevel s).
Proof. intros Hf Hnot. exact (main_frame args s patterns compiled h' Hf Hnot). Qed.

(** X18: without [--all-matches], [main] writes to one window at most. *)
Theorem main_first_match_one_window h1 h2 :
  enum_fault s = None ->
  Args.all_matches args = false ->
  existsb (is_write_to h1) (calls_since s (snd (main args s))) = true ->
  existsb (is_write_to h2) (calls_since s (snd (main args s))) = true ->
  h1 = h2.
Proof.
  intros Hf Hfirst H1 H2.
  assert (Hin : forall h,
            existsb (is_write_to h) (calls_since s (snd (main args s))) = true ->
            In h (found patterns (Args.all_matches args) s)).
  { intros h Hh.
    destruct (in_dec Z.eq_dec h (found patterns (Args.all_matches args) s))
      as [Hyes|Hno]; [exact Hyes|].
    destruct (main_frame args s patterns compiled h Hf Hno) as [Hw _].
    rewrite Hw in Hh. discriminate. }
  apply Hin in H1, H2. rewrite Hfirst in H1, H2. unfold found in H1, H2.
  destruct (filter _ _) as [|a l]; [destruct H1|].
  cbn [firstn In] in H1, H2.
  destruct H1 as [<-|[]]. destruct H2 as [<-|[]]. reflexivity.
Qed.

(** X19: the calls of [main] on a desktop whose enumeration works: one
    enumeration with its reads, then the one [print] of the matches, then
    calls of transitions only.  The matches are printed before any window
    is written to, also when a transition fails later. *)
Theorem main_order_of_calls :
  enum_fault s = None ->
  exists transitions,
    calls_since s (snd (main args s))
    = EnumWindows_
      :: flat_map (visit (toplevel s))
           (seen patterns (Args.all_matches args) s)
      ++ print_ (found patterns (Args.all_matches args) s) :: transitions /\
    forallb is_transition_call transitions = true.
Proof.
  intros Hf.
  destruct (main_anatomy args s patterns compiled Hf)
    as (r & s2 & Hfor & Hmain & Hcalls).
  rewrite Hmain. cbn [snd]. eexists. split; [exact Hcalls|].
  exact (for_in_calls_kind _ _ _ _ Hfor).
Qed.

(** X20: when the desktop has a monitor and no matched window refuses
    writes, [main] returns 0 and leaves every matched window with the
    borderless style, from the origin of the screen to the far corner
    of one of the monitors. *)
Theorem main_succeeds :
  enum_fault s = None ->
  monitors s <> [] ->
  (forall h w,
     In h (found patterns (Args.all_matches args) s) ->
     find_window h (toplevel s) = Some w -> elevated w = false) ->
  exists s',
    main args s = (Ok 0, s') /\
    forall h,
      In h (found patterns (Args.all_matches args) s) ->
      exists w' m,
        find_window h (toplevel s') = Some w' /\
        style w' = BORDERLESS_STYLE /\
        In m (monitors s) /\ rect w' = origin_to (bounds m).
Proof.
  intros Hf Hms Hfree.
  destruct (main_anatomy args s patterns compiled Hf)
    as (r & s2 & Hfor & Hmain & _).
  set (matches := found patterns (Args.all_matches args) s) in *.
  destruct (for_in_succeeds matches
              (record_call (print_ matches)
                 (after_get_windows matches
                    (seen patterns (Args.all_matches args) s) s)))
    as (s' & Hrun & _ & Hdone & _).
  - exact Hms.
  - intros h Hin. unfold writable. cbn [toplevel record_call after_get_windows].
    pose proof (found_selected _ _ _ _ Hin) as Hsel. unfold selected in Hsel.
    destruct (find_window h (toplevel s)) as [w|] eqn:Hw; [|discriminate].
    rewrite (Hfree h w Hin Hw). reflexivity.
  - rewrite Hrun in Hfor. injection Hfor as <- <-.
    exists s'. split; [exact Hmain|]. exact Hdone.
Qed.

(** X21: when nothing matches, [main] prints the empty list and returns
    0; it has written to no window, and every window is as it was. *)
Theorem main_no_match :
  enum_fault s = None ->
  found patterns (Args.all_matches args) s = [] ->
  exists s',
    main args s = (Ok 0, s') /\
    toplevel s' = toplevel s /\
    existsb is_write (calls_since s s') = false /\
    In (print_ []) (calls_since s s').
Proof.
  intros Hf Hnone.
  destruct (main_anatomy args s patterns compiled Hf)
    as (r & s2 & Hfor & Hmain & Hcalls).
  rewrite Hnone in Hfor, Hcalls. cbn [for_in] in Hfor. injection Hfor as <- <-.
  eexists. split; [exact Hmain|]. split; [reflexivity|].
  rewrite Hcalls.
  rewrite (calls_since_app _ _ []) by (rewrite app_nil_r; reflexivity).
  split.
  - cbn [existsb is_write orb]. rewrite existsb_app.
    rewrite (visit_reads_only is_write) by reflexivity. reflexivity.
  - right. apply in_or_app. right. left. reflexivity.
Qed.

(** X22: when the enumeration itself breaks down, [main] ends with the
    error of [EnumWindows]: [get_windows] catches [StopIteration] and
    nothing else.  Nothing is printed and no window is written to. *)
Theorem main_enumeration_failure code :
  enum_fault s = Some code ->
  exists s',
    main args s = (Raise (pywintypes_error code "EnumWindows"), s') /\
    toplevel s' = toplevel s /\
    calls_since s s' = [EnumWindows_].
Proof.
  intros Hf. unfold main.
  rewrite (bind_ok _ _ _ _ _ compiled).
  rewrite (bind_raise _ _ _ _ _
             (get_windows_fault patterns (Args.all_matches args) s code Hf)).
  eexists. split; [reflexivity|]. split; [reflexivity|].
  apply calls_since_app. reflexivity.
Qed.

End DriverProperties.

(** X23: a pattern that does not compile ends [main] with the error of
    [re.compile] before the window manager is called at all: the state
    is left as it was. *)
Theorem main_bad_pattern {engine : re.Engine} args s e :
  fst (list_comprehension
         (fun pat =>
            of_result
              (re.compile pat (if Args.case_insensitive args then re.I else 0)))
         (Args.patterns args) s) = Raise e ->
  main args s = (Raise e, s).
Proof.
  intros Hc. unfold main.
  pose proof (compile_keeps_state
                (fun pat =>
                   re.compile pat
                     (if Args.case_insensitive args then re.I else 0))
                (Args.patterns args) s) as Hstate.
  destruct (list_comprehension _ (Args.patterns args) s) as [r s0] eqn:Hrun.
  cbn [fst snd] in Hc, Hstate. subst r s0.
  exact (bind_raise _ _ _ _ _ Hrun).
Qed.

(** ** The further properties at concrete desktops *)

Lemma dual_has_monitor : monitors Desk.dual <> [].
Proof. discriminate. Defined.

Lemma get_windows_in_enumeration_order_witness :
  fst (get_windows (Desk.game_pattern re.I) true Desk.guarded)
  = Ok [200; 201; 202].
Proof.
  exact (get_windows_in_enumeration_order (Desk.game_pattern re.I)
           Desk.guarded eq_refl).
Defined.

Lemma get_windows_again_witness :
  fst (get_windows (Desk.game_pattern re.I) true
         (snd (get_windows (Desk.game_pattern re.I) true Desk.guarded)))
  = Ok [200; 201; 202].
Proof.
  exact (get_windows_again (Desk.game_pattern re.I) true Desk.guarded eq_refl).
Defined.

Lemma get_windows_reads_visible_titles_witness :
  exists w,
    find_window 102 (toplevel Desk.dual) = Some w /\ window_visible w = true.
Proof.
  apply (get_windows_reads_visible_titles (Desk.game_pattern 0) true Desk.dual).
  right. right. right. right. left. reflexivity.
Defined.

Lemma get_windows_pattern_order_witness :
  get_windows (Cases.two_patterns 0) true Desk.dual
  = get_windows (rev (Cases.two_patterns 0)) true Desk.dual.
Proof.
  apply get_windows_pattern_order. apply perm_swap.
Defined.

Lemma get_monitor_succeeds_witness :
  exists info s' m,
    get_monitor 102 Desk.dual = (Ok info, s') /\
    In m (monitors Desk.dual) /\
    Monitor_ info = tuple_of_rect (bounds m) /\
    toplevel s' = toplevel Desk.dual /\ monitors s' = monitors Desk.dual.
Proof.
  exact (get_monitor_succeeds Desk.dual 102 Desk.editor eq_refl
           dual_has_monitor).
Defined.

Lemma make_fullscreen_refused_changes_nothing_witness :
  exists code funcname s',
    make_fullscreen 201 Desk.guarded
    = (Raise (pywintypes_error code funcname), s') /\
    (funcname = "SetWindowPos"%string \/ funcname = "GetMonitorInfo"%string) /\
    toplevel s' = toplevel Desk.guarded /\
    monitors s' = monitors Desk.guarded /\
    In (SetWindowLong_ 201 con.GWL_STYLE BORDERLESS_STYLE)
      (calls_since Desk.guarded s').
Proof.
  exact (make_fullscreen_refused_changes_nothing Desk.guarded 201 eq_refl).
Defined.

Lemma make_fullscreen_no_rollback_witness :
  exists s',
    make_fullscreen 100 Cases.headless
    = (Raise (pywintypes_error con.ERROR_INVALID_MONITOR_HANDLE
                "GetMonitorInfo"), s') /\
    find_window 100 (toplevel s')
    = Some (mkWindow "my game window" BORDERLESS_STYLE (100, 100, 740, 580)
              None false) /\
    existsb (is_geometry_mutation 100) (calls_since Cases.headless s') = false.
Proof.
  exact (make_fullscreen_no_rollback Cases.headless 100 Desk.game
           eq_refl eq_refl eq_refl).
Defined.

Lemma make_fullscreen_succeeds_witness :
  exists s', make_fullscreen 102 Desk.dual = (Ok tt, s').
Proof.
  exact (make_fullscreen_succeeds Desk.dual 102 eq_refl dual_has_monitor).
Defined.

Lemma make_fullscreen_other_windows_witness :
  find_window 101 (toplevel (snd (make_fullscreen 102 Desk.dual)))
  = Some Desk.notepad /\
  existsb (is_write_to 101)
    (calls_since Desk.dual (snd (make_fullscreen 102 Desk.dual))) = false /\
  monitors (snd (make_fullscreen 102 Desk.dual)) = monitors Desk.dual.
Proof.
  apply (make_fullscreen_other_windows Desk.dual 102 101). discriminate.
Defined.

Lemma make_fullscreen_keeps_window_witness :
  exists w w',
    find_window 102 (toplevel Desk.dual) = Some w /\
    find_window 102 (toplevel (snd (make_fullscreen 102 Desk.dual)))
    = Some w' /\
    title w' = title w /\ menu w' = menu w /\ elevated w' = elevated w /\
    window_visible w' = true /\
    Permutation (map fst (toplevel Desk.dual))
      (map fst (toplevel (snd (make_fullscreen 102 Desk.dual)))).
Proof.
  exact (make_fullscreen_keeps_window Desk.dual 102
           (snd (make_fullscreen 102 Desk.dual)) eq_refl).
Defined.

Lemma make_fullscreen_idempotent_one_monitor_witness :
  exists s2,
    make_fullscreen 100 (snd (make_fullscreen 100 Desk.single)) = (Ok tt, s2) /\
    toplevel s2 = toplevel (snd (make_fullscreen 100 Desk.single)) /\
    monitors s2 = monitors (snd (make_fullscreen 100 Desk.single)).
Proof.
  exact (make_fullscreen_idempotent_one_monitor Desk.single 100
           (snd (make_fullscreen 100 Desk.single)) Desk.full_hd
           eq_refl eq_refl).
Defined.

Lemma make_fullscreen_at_origin_witness :
  exists w',
    find_window 100 (toplevel (snd (make_fullscreen 100 Desk.single)))
    = Some w' /\
    rect w' = bounds Desk.full_hd.
Proof.
  exact (make_fullscreen_at_origin Desk.single 100 Desk.game Desk.full_hd
           (snd (make_fullscreen 100 Desk.single)) 1920 1080
           eq_refl eq_refl eq_refl eq_refl).
Defined.

Lemma strip_decorations_only_menu_witness :
  exists s',
    strip_decorations 102 Desk.dual = (Ok tt, s') /\
    find_window 102 (toplevel s')
    = Some (mkWindow "Game editor" Desk.overlapped (2600, 100, 3240, 580)
              None false) /\
    (forall h', h' <> 102 ->
       find_window h' (toplevel s') = find_window h' (toplevel Desk.dual)) /\
    map fst (toplevel s') = map fst (toplevel Desk.dual) /\
    monitors s' = monitors Desk.dual /\
    calls_since Desk.dual s' = [SetMenu_ 102 None].
Proof.
  exact (strip_decorations_only_menu Desk.dual 102 Desk.editor eq_refl eq_refl).
Defined.

Lemma strip_decorations_twice_witness :
  exists s2,
    strip_decorations 102 (snd (strip_decorations 102 Desk.dual)) = (Ok tt, s2) /\
    toplevel s2 = toplevel (snd (strip_decorations 102 Desk.dual)).
Proof.
  exact (strip_decorations_twice Desk.dual 102
           (snd (strip_decorations 102 Desk.dual)) eq_refl).
Defined.

Lemma strip_decorations_refused_witness :
  exists code,
    strip_decorations 201 Desk.guarded
    = (Raise (pywintypes_error code "SetMenu"),
       record_call (SetMenu_ 201 None) Desk.guarded) /\
    (code = con.ERROR_INVALID_WINDOW_HANDLE \/ code = con.ERROR_ACCESS_DENIED).
Proof. exact (strip_decorations_refused Desk.guarded 201 eq_refl). Defined.

Lemma notepad_not_matched :
  ~ In 101 (found (Desk.game_pattern 0) true Desk.dual).
Proof. intros [H|[]]. discriminate H. Defined.

Lemma main_touches_matches_only_witness :
  existsb (is_write_to 101)
    (calls_since Desk.dual (snd (main (Desk.args true false false) Desk.dual)))
  = false /\
  find_window 101 (toplevel (snd (main (Desk.args true false false) Desk.dual)))
  = Some Desk.notepad.
Proof.
  exact (main_touches_matches_only (Desk.args true false false) Desk.dual
           (Desk.game_pattern 0) eq_refl 101 eq_refl notepad_not_matched).
Defined.

Lemma main_first_match_one_window_witness :
  existsb (is_write_to 200)
    (calls_since Desk.guarded
       (snd (main (Desk.args false true false) Desk.guarded))) = true /\
  200 = 200.
Proof.
  split; [reflexivity|].
  exact (main_first_match_one_window (Desk.args false true false) Desk.guarded
           (Desk.game_pattern re.I) eq_refl 200 200 eq_refl eq_refl
           eq_refl eq_refl).
Defined.

Lemma main_order_of_calls_witness :
  exists transitions,
    calls_since Desk.guarded
      (snd (main (Desk.args true true false) Desk.guarded))
    = EnumWindows_
      :: flat_map (visit (toplevel Desk.guarded)) [200; 201; 202]
      ++ print_ [200; 201; 202] :: transitions /\
    forallb is_transition_call transitions = true.
Proof.
  exact (main_order_of_calls (Desk.args true true false) Desk.guarded
           (Desk.game_pattern re.I) eq_refl eq_refl).
Defined.

Lemma editor_is_free h w :
  In h (found (Desk.game_pattern 0) true Desk.dual) ->
  find_window h (toplevel Desk.dual) = Some w -> elevated w = false.
Proof.
  intros [<-|[]] Hw. injection Hw as <-. reflexivity.
Defined.

Lemma main_succeeds_witness :
  exists s',
    main (Desk.args true false false) Desk.dual = (Ok 0, s') /\
    forall h,
      In h [102] ->
      exists w' m,
        find_window h (toplevel s') = Some w' /\
        style w' = BORDERLESS_STYLE /\
        In m (monitors Desk.dual) /\ rect w' = origin_to (bounds m).
Proof.
  exact (main_succeeds (Desk.args true false false) Desk.dual
           (Desk.game_pattern 0) eq_refl eq_refl dual_has_monitor
           editor_is_free).
Defined.

Lemma main_no_match_witness :
  exists s',
    main (Desk.args true false false) Desk.single = (Ok 0, s') /\
    toplevel s' = toplevel Desk.single /\
    existsb is_write (calls_since Desk.single s') = false /\
    In (print_ []) (calls_since Desk.single s').
Proof.
  exact (main_no_match (Desk.args true false false) Desk.single
           (Desk.game_pattern 0) eq_refl eq_refl eq_refl).
Defined.

Lemma main_enumeration_failure_witness :
  exists s',
    main (Desk.args true false false) Cases.broken
    = (Raise (pywintypes_error 8 "EnumWindows"), s') /\
    toplevel s' = toplevel Cases.broken /\
    calls_since Cases.broken s' = [EnumWindows_].
Proof.
  exact (main_enumeration_failure (Desk.args true false false) Cases.broken
           (Desk.game_pattern 0) eq_refl 8 eq_refl).
Defined.

Lemma main_bad_pattern_witness :
  main (engine := literal.engine)
    (Args.mk ["Game"; "*.exe"]%string false false 0 false) Desk.dual
  = (Raise (re_error "*.exe"), Desk.dual).
Proof.
  exact (main_bad_pattern (engine := literal.engine)
           (Args.mk ["Game"; "*.exe"]%string false false 0 false) Desk.dual
           (re_error "*.exe") eq_refl).
Defined.
